(** * Handlers of the Trains logger

    A shallow embedding of [ignite/contrib/handlers/trains_logger.py]:
    the six event handlers, the [TrainsLogger] constructor with its bypass
    mode, and the [TrainsSaver] checkpoint adapter.

    Python objects are records, [isinstance] tests are matches on tagged
    values, and every call that leaves the module (vendor SDK calls,
    [warnings.warn], the local disk save) is appended to a trace kept in
    the world, so that the order and the arguments of the calls can be
    stated.  Exceptions are results [Raise e]; what was done before the
    exception stays in the world. *)

From Stdlib Require Import String Ascii List ZArith QArith Bool Arith Lia.
From Stdlib Require Import DecimalString DecimalNat SpecFloat.
Import ListNotations.

Local Open Scope string_scope.
Local Open Scope list_scope.

(** ** Python values *)

(** The contents of a [torch.Tensor], flattened.  A finite float is
    carried as the rational it denotes; infinities and NaN are left out.
    No handler does arithmetic on floats, apart from the conversion
    [float(int)] below. *)
Definition Tensor := list Q.

Inductive PyValue :=
| PyNone
| PyBool (b : bool)
| PyInt (z : Z)
| PyFloat (q : Q)
| PyStr (s : string)
| PyTensor (t : Tensor)
| PyObject (cls : string).   (* any other object, by the name of its class;
                                its class derives from none of the above *)

Definition type_name (v : PyValue) : string :=
  match v with
  | PyNone => "NoneType"
  | PyBool _ => "bool"
  | PyInt _ => "int"
  | PyFloat _ => "float"
  | PyStr _ => "str"
  | PyTensor _ => "torch.Tensor"
  | PyObject cls => cls
  end.

(** ["{}".format(type(v))] *)
Definition format_type (v : PyValue) : string :=
  "<class '" ++ type_name v ++ "'>".

(** [isinstance(v, int)]; [bool] is a subclass of [int]. *)
Definition isinstance_int (v : PyValue) : bool :=
  match v with
  | PyInt _ | PyBool _ => true
  | _ => false
  end.

(** [isinstance(v, (float, int))] *)
Definition isinstance_float_int (v : PyValue) : bool :=
  match v with
  | PyFloat _ | PyInt _ | PyBool _ => true
  | _ => false
  end.

(** Truth value of a [str] or [None]. *)
Definition truthy (s : option string) : bool :=
  match s with
  | Some (String _ _) => true
  | _ => false
  end.

(** The rational denoted by the finite double [(-1)^s * m * 2^e]. *)
Definition Q_of_finite (s : bool) (m : positive) (e : Z) : Q :=
  let n := if s then Zneg m else Zpos m in
  match e with
  | Z0 => inject_Z n
  | Zpos p => inject_Z (n * 2 ^ Zpos p)
  | Zneg p => Qred (Qmake n (2 ^ p)%positive)
  end.

(** [float(z)] for an [int]: the nearest double, ties to even; [None]
    when that is beyond the doubles, where Python raises
    [OverflowError]. *)
Definition float_of_int (z : Z) : option Q :=
  match binary_normalize 53 1024 z 0 false with
  | S754_zero _ => Some 0%Q
  | S754_finite s m e => Some (Q_of_finite s m e)
  | _ => None
  end.

(** [str(i)] for an index of [enumerate]. *)
Definition str_of_nat (i : nat) : string :=
  NilEmpty.string_of_uint (Nat.to_uint i).

(** ** Exceptions and results *)

Inductive PyExc :=
| RuntimeError (msg : string)
| TypeError (msg : string)
| ValueError (msg : string)
| KeyError (key : string)
| AttributeError (msg : string)
| OSError (msg : string)
| OverflowError (msg : string).

Inductive Result (A : Type) :=
| Ok (a : A)
| Raise (e : PyExc).
Arguments Ok {A} a.
Arguments Raise {A} e.

(** ** Dictionaries, in insertion order *)

Definition Dict (V : Type) := list (string * V).

Fixpoint dict_get {V} (k : string) (d : Dict V) : option V :=
  match d with
  | [] => None
  | (k', v) :: d' => if String.eqb k k' then Some v else dict_get k d'
  end.

(** [d[k] = v]: an existing key keeps its place. *)
Fixpoint dict_set {V} (k : string) (v : V) (d : Dict V) : Dict V :=
  match d with
  | [] => [(k, v)]
  | (k', v') :: d' =>
      if String.eqb k k' then (k, v) :: d' else (k', v') :: dict_set k v d'
  end.

Definition keys {V} (d : Dict V) : list string := map fst d.

(** ** Strings and paths *)

(** [s.partition(".")] *)
Fixpoint partition_dot (s : string) : string * string * string :=
  match s with
  | EmptyString => ("", "", "")
  | String c s' =>
      if Ascii.eqb c "."%char then ("", ".", s')
      else
        match partition_dot s' with
        | (h, "", _) => (String c h, "", "")
        | (h, sep, t) => (String c h, sep, t)
        end
  end.

Fixpoint ends_with_slash (s : string) : bool :=
  match s with
  | EmptyString => false
  | String c EmptyString => Ascii.eqb c "/"%char
  | String _ s' => ends_with_slash s'
  end.

(** [os.path.join(a, b)] on a POSIX system. *)
Definition os_path_join (a b : string) : string :=
  match b with
  | String "/"%char _ => b
  | _ =>
      match a with
      | EmptyString => b
      | _ => if ends_with_slash a then a ++ b else a ++ "/" ++ b
      end
  end.

(** [os.path.basename(p)]: what follows the last slash. *)
Fixpoint os_path_basename (p : string) : string :=
  match p with
  | EmptyString => ""
  | String c p' =>
      if Ascii.eqb c "/"%char then os_path_basename p'
      else
        if existsb (Ascii.eqb "/"%char) (list_ascii_of_string p')
        then os_path_basename p'
        else p
  end.

(** ** Objects of the vendor SDK *)

Inductive SdkObject :=
| _Stub        (* the stub installed in bypass mode *)
| SdkTask      (* the task returned by [trains.Task.init] *)
| SdkLogger    (* [task.get_logger()] of a real task *)
| SdkNone.     (* [None]: no current task *)

Inductive StubValue :=
| StubStr (s : string)
| StubSelf.

(** [_Stub.__getattr__] *)
Definition _Stub_getattr (attr : string) : StubValue :=
  if existsb (String.eqb attr) ["name"; "id"] then StubStr "" else StubSelf.

(** [_Stub.__call__] returns the stub. *)
Definition _Stub_call : StubValue := StubSelf.

(** [task.get_logger()]; on the stub the attribute is the stub, and
    calling it returns the stub. *)
Definition get_logger (task : SdkObject) : SdkObject :=
  match task with
  | _Stub => _Stub
  | SdkTask => SdkLogger
  | other => other
  end.

(** [WeightsGradientHistHelper(logger=..., report_freq=..., ...)] *)
Record WeightsGradientHistHelper := {
  helper_logger : SdkObject;
  report_freq : PyValue;
  histogram_update_freq_multiplier : PyValue;
  histogram_granularity : PyValue
}.

Record TrainsLogger := {
  _task : SdkObject;
  trains_logger : SdkObject;
  grad_helper : WeightsGradientHistHelper
}.

(** The [logger] argument of a handler, by class. *)
Inductive LoggerArg :=
| ATrainsLogger (lg : TrainsLogger)
| OtherLogger (cls : string).

(** ** Calls that leave the module *)

Inductive Effect :=
| report_scalar (receiver : SdkObject)
    (title series : string) (iteration value : PyValue)
| add_histogram (receiver : WeightsGradientHistHelper)
    (title series : string) (step : PyValue) (hist_data : Tensor)
| warn (msg : string)
| Task_init (project_name task_name task_type : PyValue)
    (experiment_kwargs : Dict PyValue)
| DiskSaver_save (dirname : string) (checkpoint : Dict PyValue)
    (filename : string)
| create_output_model (model : Dict PyValue) (saved_path framework : string)
    (task : SdkObject) (singlefile : bool) (model_name : string)
| mkdtemp (prefix : string)
| set_output_uri (task : SdkObject) (output_uri : string).

(** ** The world and the monad *)

Record World := {
  trains_installed : bool;          (* does [import trains] succeed *)
  environ : Dict string;            (* [os.environ] *)
  _bypass : option bool;            (* class attribute [TrainsLogger._bypass] *)
  files : list string;              (* paths that exist on disk *)
  current_task : SdkObject;         (* [trains.Task.current_task()] *)
  clock : string;                   (* [datetime.now().strftime(...)] *)
  tempdir : string;                 (* [tempfile.gettempdir()] *)
  tmp_suffix : string;              (* suffix chosen by [tempfile.mkdtemp] *)
  effects : list Effect             (* oldest first *)
}.

Definition add_effects (es : list Effect) (w : World) : World :=
  {| trains_installed := trains_installed w; environ := environ w;
     _bypass := _bypass w; files := files w;
     current_task := current_task w; clock := clock w;
     tempdir := tempdir w; tmp_suffix := tmp_suffix w; effects := effects w ++ es |}.

Definition with_bypass (b : option bool) (w : World) : World :=
  {| trains_installed := trains_installed w; environ := environ w;
     _bypass := b; files := files w;
     current_task := current_task w; clock := clock w;
     tempdir := tempdir w; tmp_suffix := tmp_suffix w; effects := effects w |}.

Definition with_files (fs : list string) (w : World) : World :=
  {| trains_installed := trains_installed w; environ := environ w;
     _bypass := _bypass w; files := fs;
     current_task := current_task w; clock := clock w;
     tempdir := tempdir w; tmp_suffix := tmp_suffix w; effects := effects w |}.

Definition with_current_task (t : SdkObject) (w : World) : World :=
  {| trains_installed := trains_installed w; environ := environ w;
     _bypass := _bypass w; files := files w;
     current_task := t; clock := clock w;
     tempdir := tempdir w; tmp_suffix := tmp_suffix w; effects := effects w |}.

(** A method body: it runs on [self] and the world, and returns both with
    a value or an exception. *)
Definition M (Self A : Type) : Type :=
  Self -> World -> Self * World * Result A.

Definition ret {Self A} (a : A) : M Self A :=
  fun s w => (s, w, Ok a).

Definition bind {Self A B} (m : M Self A) (k : A -> M Self B) : M Self B :=
  fun s w =>
    match m s w with
    | (s', w', Ok a) => k a s' w'
    | (s', w', Raise e) => (s', w', Raise e)
    end.

Definition raise {Self A} (e : PyExc) : M Self A :=
  fun s w => (s, w, Raise e).

Definition get_self {Self} : M Self Self :=
  fun s w => (s, w, Ok s).

Definition get_world {Self} : M Self World :=
  fun s w => (s, w, Ok w).

Definition modify_world {Self} (f : World -> World) : M Self unit :=
  fun s w => (s, f w, Ok tt).

Definition emit {Self} (e : Effect) : M Self unit :=
  modify_world (add_effects [e]).

Definition lift {Self A} (r : Result A) : M Self A :=
  fun s w => (s, w, r).

Declare Scope py_scope.
Delimit Scope py_scope with py.
Notation "x <- m ;; k" := (bind m (fun x => k))
  (at level 100, m at next level, right associativity) : py_scope.
Notation "m ;; k" := (bind m (fun _ => k))
  (at level 100, right associativity) : py_scope.
Local Open Scope py_scope.

(** [for x in l: body(x)] *)
Fixpoint for_each {Self A} (l : list A) (body : A -> M Self unit)
  : M Self unit :=
  match l with
  | [] => ret tt
  | x :: l' => body x ;; for_each l' body
  end.

(** What a call added to the trace. *)
Definition new_effects (before after : World) : list Effect :=
  skipn (length (effects before)) (effects after).

(** ** The model, the optimizer and the engine *)

(** A [torch.nn.Parameter]: its value and its gradient, if any. *)
Record Param := {
  data : Tensor;
  grad : option Tensor
}.

Record Module := {
  named_parameters : list (string * Param)
}.

Record Optimizer := {
  param_groups : list (Dict PyValue)
}.

Record Engine := {
  state_output : PyValue;
  state_metrics : Dict PyValue;
  (* [engine.state.get_event_attrib_value] *)
  get_event_attrib_value : string -> Result Z
}.

(** A callable with a [__name__], such as [torch.norm]. *)
Record Reduction := {
  fn_name : string;
  fn_apply : Tensor -> PyValue
}.

(** [t.detach().cpu().numpy()]: the same contents. *)
Definition detach (t : Tensor) : Tensor := t.
Definition cpu (t : Tensor) : Tensor := t.
Definition numpy (t : Tensor) : Tensor := t.

(** ** The handlers' fields, as their base classes set them *)

Record BaseOutputHandler := {
  oh_tag : string;
  metric_names : option (list string);
  output_transform : option (PyValue -> PyValue);
  global_step_transform : Engine -> string -> Result PyValue
}.

Record BaseOptimizerParamsHandler := {
  optimizer : Optimizer;
  param_name : string;
  op_tag : option string
}.

Record BaseWeightsScalarHandler := {
  ws_model : Module;
  reduction : Reduction;
  ws_tag : option string
}.

Record BaseWeightsHistHandler := {
  wh_model : Module;
  wh_tag : option string
}.

(** ["{}/".format(self.tag) if self.tag else ""] *)
Definition tag_prefix_of (tag : option string) : string :=
  match tag with
  | Some t => if truthy tag then t ++ "/" else ""
  | None => ""
  end.

Definition import_error_msg : string :=
  "This contrib module requires trains to be installed. You may install trains using: "
  ++ String (ascii_of_nat 10) " pip install trains " ++ String (ascii_of_nat 10) "".

Record DiskSaver := {
  dirname : string;
  _atomic : bool
}.

Record TrainsSaver := {
  base : DiskSaver;
  logger : TrainsLogger;
  task : SdkObject
}.

Section Handlers.

(** [BaseOutputHandler._setup_output_metrics], of [base_logger.py]: the
    dictionary of metrics taken from the engine, or the exception it
    raises.  It reads the handler and the engine only. *)
Variable _setup_output_metrics :
  BaseOutputHandler -> Engine -> Result (Dict PyValue).

(** [float(v)] for a value that is no float, int, bool or one-element
    tensor: a string is parsed, another object is asked for [__float__];
    the number, or the exception that Python raises. *)
Variable float_of_object : PyValue -> Result Q.

(** [DiskSaver.__init__] and [DiskSaver.__call__], of
    [ignite/handlers/checkpoint.py]: they act on the disk only. *)
Variable DiskSaver_init :
  string -> Dict PyValue -> list string -> list string * Result DiskSaver.
Variable DiskSaver_call :
  DiskSaver -> Dict PyValue -> string -> list string ->
  list string * Result unit.

(** [float(v)] *)
Definition py_float (v : PyValue) : Result Q :=
  match v with
  | PyFloat q => Ok q
  | PyBool b => Ok (if b then 1%Q else 0%Q)
  | PyInt z =>
      match float_of_int z with
      | Some q => Ok q
      | None => Raise (OverflowError "int too large to convert to float")
      end
  | PyTensor [q] => Ok q
  | other => float_of_object other
  end.

(** *** OutputHandler *)

Definition OutputHandler_call (engine : Engine) (logger : LoggerArg)
    (event_name : string) : M BaseOutputHandler unit :=
  match logger with
  | OtherLogger _ =>
      raise (RuntimeError "Handler OutputHandler works only with TrainsLogger")
  | ATrainsLogger lg =>
      self <- get_self ;;
      metrics <- lift (_setup_output_metrics self engine) ;;
      global_step <- lift (global_step_transform self engine event_name) ;;
      if negb (isinstance_int global_step) then
        raise (TypeError ("global_step must be int, got "
                          ++ format_type global_step
                          ++ ". Please check the output of global_step_transform."))
      else
        for_each metrics (fun kv =>
          let '(key, value) := kv in
          if isinstance_float_int value then
            emit (report_scalar (trains_logger lg)
                    (oh_tag self) key global_step value)
          else
            emit (warn ("TrainsLogger output_handler can not log metrics value type "
                        ++ format_type value)))
  end.

(** *** OptimizerParamsHandler *)

(** [float(param_group[name])] *)
Definition param_value (name : string) (param_group : Dict PyValue)
  : Result Q :=
  match dict_get name param_group with
  | None => Raise (KeyError name)
  | Some x => py_float x
  end.

(** [{str(i): float(pg[name]) for i, pg in enumerate(groups)}], from
    index [i] on, added to [acc]. *)
Fixpoint params_dict (name : string) (i : nat) (groups : list (Dict PyValue))
    (acc : Dict Q) : Result (Dict Q) :=
  match groups with
  | [] => Ok acc
  | param_group :: rest =>
      match param_value name param_group with
      | Raise e => Raise e
      | Ok v => params_dict name (S i) rest (dict_set (str_of_nat i) v acc)
      end
  end.

Definition OptimizerParamsHandler_call (engine : Engine) (logger : LoggerArg)
    (event_name : string) : M BaseOptimizerParamsHandler unit :=
  match logger with
  | OtherLogger _ =>
      raise (RuntimeError "Handler OptimizerParamsHandler works only with TrainsLogger")
  | ATrainsLogger lg =>
      self <- get_self ;;
      global_step <- lift (get_event_attrib_value engine event_name) ;;
      let tag_prefix := tag_prefix_of (op_tag self) in
      params <- lift (params_dict (param_name self) 0
                        (param_groups (optimizer self)) []) ;;
      for_each params (fun kv =>
        let '(k, v) := kv in
        emit (report_scalar (trains_logger lg)
                (tag_prefix ++ param_name self) k (PyInt global_step)
                (PyFloat v)))
  end.

(** *** WeightsScalarHandler, WeightsHistHandler *)

Definition WeightsScalarHandler_call (engine : Engine) (logger : LoggerArg)
    (event_name : string) : M BaseWeightsScalarHandler unit :=
  match logger with
  | OtherLogger _ =>
      raise (RuntimeError "Handler WeightsScalarHandler works only with TrainsLogger")
  | ATrainsLogger lg =>
      self <- get_self ;;
      global_step <- lift (get_event_attrib_value engine event_name) ;;
      let tag_prefix := tag_prefix_of (ws_tag self) in
      for_each (named_parameters (ws_model self)) (fun np =>
        let '(name, p) := np in
        match grad p with
        | None => ret tt
        | Some _ =>
            let '(title_name, _, series_name) := partition_dot name in
            emit (report_scalar (trains_logger lg)
                    (tag_prefix ++ "weights_" ++ fn_name (reduction self)
                       ++ "/" ++ title_name)
                    series_name (PyInt global_step)
                    (fn_apply (reduction self) (data p)))
        end)
  end.

Definition WeightsHistHandler_call (engine : Engine) (logger : LoggerArg)
    (event_name : string) : M BaseWeightsHistHandler unit :=
  match logger with
  | OtherLogger _ =>
      raise (RuntimeError "Handler 'WeightsHistHandler' works only with TrainsLogger")
  | ATrainsLogger lg =>
      self <- get_self ;;
      global_step <- lift (get_event_attrib_value engine event_name) ;;
      let tag_prefix := tag_prefix_of (wh_tag self) in
      for_each (named_parameters (wh_model self)) (fun np =>
        let '(name, p) := np in
        match grad p with
        | None => ret tt
        | Some g =>
            let '(title_name, _, series_name) := partition_dot name in
            emit (add_histogram (grad_helper lg)
                    (tag_prefix ++ "weights_" ++ title_name)
                    series_name (PyInt global_step)
                    (numpy (cpu (detach g))))
        end)
  end.

(** *** GradsScalarHandler, GradsHistHandler *)

Definition GradsScalarHandler_call (engine : Engine) (logger : LoggerArg)
    (event_name : string) : M BaseWeightsScalarHandler unit :=
  match logger with
  | OtherLogger _ =>
      raise (RuntimeError "Handler GradsScalarHandler works only with TrainsLogger")
  | ATrainsLogger lg =>
      self <- get_self ;;
      global_step <- lift (get_event_attrib_value engine event_name) ;;
      let tag_prefix := tag_prefix_of (ws_tag self) in
      for_each (named_parameters (ws_model self)) (fun np =>
        let '(name, p) := np in
        match grad p with
        | None => ret tt
        | Some _ =>
            let '(title_name, _, series_name) := partition_dot name in
            emit (report_scalar (trains_logger lg)
                    (tag_prefix ++ "grads_" ++ fn_name (reduction self)
                       ++ "/" ++ title_name)
                    series_name (PyInt global_step)
                    (fn_apply (reduction self) (data p)))
        end)
  end.

Definition GradsHistHandler_call (engine : Engine) (logger : LoggerArg)
    (event_name : string) : M BaseWeightsHistHandler unit :=
  match logger with
  | OtherLogger _ =>
      raise (RuntimeError "Handler 'GradsHistHandler' works only with TrainsLogger")
  | ATrainsLogger lg =>
      self <- get_self ;;
      global_step <- lift (get_event_attrib_value engine event_name) ;;
      let tag_prefix := tag_prefix_of (wh_tag self) in
      for_each (named_parameters (wh_model self)) (fun np =>
        let '(name, p) := np in
        match grad p with
        | None => ret tt
        | Some g =>
            let '(title_name, _, series_name) := partition_dot name in
            emit (add_histogram (grad_helper lg)
                    (tag_prefix ++ "grads_" ++ title_name)
                    series_name (PyInt global_step)
                    (numpy (cpu (detach g))))
        end)
  end.

(** *** TrainsLogger *)

(** [TrainsLogger.set_bypass_mode]: [setattr(cls, "_bypass", bypass)] *)
Definition set_bypass_mode {Self} (bypass : bool) : M Self unit :=
  modify_world (with_bypass (Some bypass)).

(** [TrainsLogger.bypass_mode]:
    [getattr(cls, "_bypass", bool(os.environ.get("CI")))] *)
Definition bypass_mode {Self} : M Self bool :=
  w <- get_world ;;
  ret (match _bypass w with
       | Some b => b
       | None => truthy (dict_get "CI" (environ w))
       end).

(** [kwargs.get(k, default)] *)
Definition kwargs_get (k : string) (default : PyValue) (kwargs : Dict PyValue)
  : PyValue :=
  match dict_get k kwargs with
  | Some v => v
  | None => default
  end.

Definition own_kwargs : list string :=
  ["project_name"; "task_name"; "task_type"; "report_freq";
   "histogram_update_freq_multiplier"; "histogram_granularity"].

Definition TrainsLogger_init (kwargs : Dict PyValue) : M unit TrainsLogger :=
  w <- get_world ;;
  if negb (trains_installed w) then raise (RuntimeError import_error_msg)
  else
    let experiment_kwargs :=
      filter (fun kv => negb (existsb (String.eqb (fst kv)) own_kwargs)) kwargs in
    bypass <- bypass_mode ;;
    _task <- (if bypass then
                emit (warn "TrainsSaver: running in bypass mode") ;;
                ret _Stub
              else
                emit (Task_init (kwargs_get "project_name" PyNone kwargs)
                        (kwargs_get "task_name" PyNone kwargs)
                        (kwargs_get "task_type" (PyObject "TaskTypes.training") kwargs)
                        experiment_kwargs) ;;
                modify_world (with_current_task SdkTask) ;;
                ret SdkTask) ;;
    let trains_logger := get_logger _task in
    ret {| _task := _task;
           trains_logger := trains_logger;
           grad_helper :=
             {| helper_logger := trains_logger;
                report_freq := kwargs_get "report_freq" (PyInt 100) kwargs;
                histogram_update_freq_multiplier :=
                  kwargs_get "histogram_update_freq_multiplier" (PyInt 10) kwargs;
                histogram_granularity :=
                  kwargs_get "histogram_granularity" (PyInt 50) kwargs |} |}.

(** *** TrainsSaver *)

(** A call of [DiskSaver] on the files of the world. *)
Definition on_files {Self A}
    (f : list string -> list string * Result A) : M Self A :=
  fun s w => let '(fs, r) := f (files w) in (s, with_files fs w, r).

Definition from_option (s : option string) : string :=
  match s with
  | Some x => x
  | None => ""
  end.

Definition TrainsSaver_init (logger : LoggerArg) (output_uri : option string)
    (dirname : option string) (kwargs : Dict PyValue) : M unit TrainsSaver :=
  match logger with
  | OtherLogger _ =>
      raise (TypeError "logger must be an instance of TrainsLogger")
  | ATrainsLogger lg =>
      w <- get_world ;;
      if negb (trains_installed w) then raise (RuntimeError import_error_msg)
      else
        dirname <- (if negb (truthy dirname) then
                      let prefix := ("ignite_checkpoints_" ++ clock w)%string in
                      let d := os_path_join (tempdir w) (prefix ++ tmp_suffix w)%string in
                      emit (mkdtemp prefix) ;;
                      modify_world (fun w => with_files (d :: files w) w) ;;
                      emit (warn ("TrainsSaver created a temporary checkpoints directory: " ++ d)) ;;
                      ret d
                    else ret (from_option dirname)) ;;
        base <- on_files (DiskSaver_init dirname kwargs) ;;
        w <- get_world ;;
        let task := current_task w in
        (if truthy output_uri then
           match task with
           | SdkTask => emit (set_output_uri task (from_option output_uri))
           | _Stub => ret tt
           | _ => raise (AttributeError "object has no attribute 'output_uri'")
           end
         else ret tt) ;;
        ret {| base := base; logger := lg; task := task |}
  end.

Definition TrainsSaver_call (checkpoint : Dict PyValue) (filename : string)
  : M TrainsSaver unit :=
  self <- get_self ;;
  emit (DiskSaver_save (dirname (base self)) checkpoint filename) ;;
  on_files (DiskSaver_call (base self) checkpoint filename) ;;
  w <- get_world ;;
  if negb (trains_installed w) then raise (RuntimeError import_error_msg)
  else
    if _atomic (base self) then
      let path := os_path_join (dirname (base self)) filename in
      if existsb (String.eqb path) (files w) then
        emit (create_output_model checkpoint path "pytorch" (task self) true
                (os_path_basename filename))
      else ret tt
    else ret tt.

End Handlers.

(** ** Reading the outcome of a call *)

Definition self_of {Self A} (x : Self * World * Result A) : Self :=
  fst (fst x).

Definition world_of {Self A} (x : Self * World * Result A) : World :=
  snd (fst x).

Definition result_of {Self A} (x : Self * World * Result A) : Result A :=
  snd x.

Definition is_ok {A} (r : Result A) : bool :=
  match r with
  | Ok _ => true
  | Raise _ => false
  end.

(** The [report_scalar] calls of a trace made with the given series. *)
Definition reports_for (series : string) (es : list Effect) : list Effect :=
  filter (fun e =>
            match e with
            | report_scalar _ _ s _ _ => String.eqb s series
            | _ => false
            end) es.

Definition is_warning (e : Effect) : bool :=
  match e with
  | warn _ => true
  | _ => false
  end.

Definition is_upload (e : Effect) : bool :=
  match e with
  | create_output_model _ _ _ _ _ _ => true
  | _ => false
  end.

Definition is_session (e : Effect) : bool :=
  match e with
  | Task_init _ _ _ _ => true
  | _ => false
  end.

(** What the loop of [OutputHandler.__call__] does with one entry. *)
Definition output_entry (lg : TrainsLogger) (tag : string)
    (global_step : PyValue) (kv : string * PyValue) : list Effect :=
  if isinstance_float_int (snd kv) then
    [report_scalar (trains_logger lg) tag (fst kv) global_step (snd kv)]
  else
    [warn ("TrainsLogger output_handler can not log metrics value type "
           ++ format_type (snd kv))].

(** What the loop of a scalar handler does with one named parameter;
    [kind] is ["weights_"] or ["grads_"]. *)
Definition scalar_entry (lg : TrainsLogger) (kind : string)
    (self : BaseWeightsScalarHandler) (global_step : Z)
    (np : string * Param) : list Effect :=
  match grad (snd np) with
  | None => []
  | Some _ =>
      let '(title_name, _, series_name) := partition_dot (fst np) in
      [report_scalar (trains_logger lg)
         (tag_prefix_of (ws_tag self) ++ kind ++ fn_name (reduction self)
            ++ "/" ++ title_name)
         series_name (PyInt global_step)
         (fn_apply (reduction self) (data (snd np)))]
  end.

(** What the loop of a histogram handler does with one named parameter. *)
Definition hist_entry (lg : TrainsLogger) (kind : string)
    (self : BaseWeightsHistHandler) (global_step : Z)
    (np : string * Param) : list Effect :=
  match grad (snd np) with
  | None => []
  | Some g =>
      let '(title_name, _, series_name) := partition_dot (fst np) in
      [add_histogram (grad_helper lg)
         (tag_prefix_of (wh_tag self) ++ kind ++ title_name)
         series_name (PyInt global_step) (numpy (cpu (detach g)))]
  end.

(** The world and the result of a call, without [self]. *)
Definition outcome {Self A} (x : Self * World * Result A)
  : World * Result A :=
  (world_of x, result_of x).

(** The same handler on another model. *)
Definition scalar_handler_on (params : list (string * Param))
    (self : BaseWeightsScalarHandler) : BaseWeightsScalarHandler :=
  {| ws_model := {| named_parameters := params |};
     reduction := reduction self; ws_tag := ws_tag self |}.

Definition hist_handler_on (params : list (string * Param))
    (self : BaseWeightsHistHandler) : BaseWeightsHistHandler :=
  {| wh_model := {| named_parameters := params |}; wh_tag := wh_tag self |}.

(** [set_bypass_mode] called with each value of [bs] in turn. *)
Definition set_bypass_modes (bs : list bool) : M unit unit :=
  for_each bs set_bypass_mode.

(** ** Sample objects *)

Module Sample.

Definition world : World :=
  {| trains_installed := true; environ := []; _bypass := None;
     files := []; current_task := SdkNone;
     clock := "2020_05_01_10_00_00_"; tempdir := "/tmp";
     tmp_suffix := "k3x9"; effects := [] |}.

Definition world_without_trains : World :=
  {| trains_installed := false; environ := []; _bypass := None;
     files := []; current_task := SdkNone;
     clock := "2020_05_01_10_00_00_"; tempdir := "/tmp";
     tmp_suffix := "k3x9"; effects := [] |}.

Definition world_on_ci : World :=
  {| trains_installed := true; environ := [("CI", "true")]; _bypass := None;
     files := []; current_task := SdkNone;
     clock := "2020_05_01_10_00_00_"; tempdir := "/tmp";
     tmp_suffix := "k3x9"; effects := [] |}.

Definition trains : TrainsLogger :=
  {| _task := SdkTask; trains_logger := SdkLogger;
     grad_helper :=
       {| helper_logger := SdkLogger; report_freq := PyInt 100;
          histogram_update_freq_multiplier := PyInt 10;
          histogram_granularity := PyInt 50 |} |}.

Definition engine : Engine :=
  {| state_output := PyFloat (1 # 2);
     state_metrics := [("nll", PyFloat (3 # 10)); ("accuracy", PyTensor [9 # 10])];
     get_event_attrib_value := fun _ => Ok 7%Z |}.

(** A stand-in for [_setup_output_metrics]: all the engine's metrics. *)
Definition all_metrics (_ : BaseOutputHandler) (e : Engine)
  : Result (Dict PyValue) := Ok (state_metrics e).

Definition output_handler : BaseOutputHandler :=
  {| oh_tag := "validation"; metric_names := None; output_transform := None;
     global_step_transform := fun e ev => Ok (PyInt 7) |}.

Definition float_step_handler : BaseOutputHandler :=
  {| oh_tag := "validation"; metric_names := None; output_transform := None;
     global_step_transform := fun e ev => Ok (PyFloat (7 # 2)) |}.

(** A stand-in for [float] on the values that are not numbers, for
    samples that hold numbers only: it refuses them all. *)
Definition no_conversion (v : PyValue) : Result Q :=
  Raise (TypeError ("float() refuses " ++ type_name v)).

Definition sgd : Optimizer :=
  {| param_groups := [[("lr", PyFloat (1 # 10)); ("momentum", PyInt 0)];
                      [("lr", PyFloat (1 # 100)); ("momentum", PyInt 0)]] |}.

Definition lr_handler : BaseOptimizerParamsHandler :=
  {| optimizer := sgd; param_name := "lr"; op_tag := Some "generator" |}.

(** The same optimizer asked for a parameter that it does not hold. *)
Definition betas_handler : BaseOptimizerParamsHandler :=
  {| optimizer := sgd; param_name := "betas"; op_tag := None |}.

(** An optimizer that counts its steps in an [int] of 54 bits. *)
Definition counting : Optimizer :=
  {| param_groups := [[("steps", PyInt (2 ^ 53 + 1))]] |}.

Definition steps_handler : BaseOptimizerParamsHandler :=
  {| optimizer := counting; param_name := "steps"; op_tag := None |}.

(** An optimizer whose second group holds an [int] beyond the doubles. *)
Definition overflowing : Optimizer :=
  {| param_groups := [[("lr", PyFloat (1 # 10))];
                      [("lr", PyInt (10 ^ 400))]] |}.

Definition overflowing_handler : BaseOptimizerParamsHandler :=
  {| optimizer := overflowing; param_name := "lr"; op_tag := None |}.

(** One parameter whose value and gradient differ, one without gradient. *)
Definition net : Module :=
  {| named_parameters :=
       [("fc1.weight", {| data := [1; 2]; grad := Some [5; 6] |});
        ("fc1.bias", {| data := [3]; grad := None |})] |}.

(** A reduction that keeps the first entry. *)
Definition first_entry : Reduction :=
  {| fn_name := "first";
     fn_apply := fun t => match t with q :: _ => PyFloat q | [] => PyNone end |}.

Definition scalar_handler : BaseWeightsScalarHandler :=
  {| ws_model := net; reduction := first_entry; ws_tag := None |}.

Definition hist_handler : BaseWeightsHistHandler :=
  {| wh_model := net; wh_tag := None |}.

(** A disk on which a save creates the file and nothing fails. *)
Definition disk_init (d : string) (_ : Dict PyValue) (fs : list string)
  : list string * Result DiskSaver :=
  (fs, Ok {| dirname := d; _atomic := true |}).

Definition disk_call (s : DiskSaver) (_ : Dict PyValue) (filename : string)
    (fs : list string) : list string * Result unit :=
  (os_path_join (dirname s) filename :: fs, Ok tt).

Definition checkpoint : Dict PyValue := [("model", PyObject "OrderedDict")].

Definition atomic_saver : TrainsSaver :=
  {| base := {| dirname := "/ckpt"; _atomic := true |};
     logger := trains; task := SdkTask |}.

Definition plain_saver : TrainsSaver :=
  {| base := {| dirname := "/ckpt"; _atomic := false |};
     logger := trains; task := SdkTask |}.

End Sample.

(** ** Further readings of a trace *)

Definition has_grad (p : Param) : bool :=
  match grad p with
  | Some _ => true
  | None => false
  end.

Definition is_report (e : Effect) : bool :=
  match e with
  | report_scalar _ _ _ _ _ => true
  | _ => false
  end.

Definition series_of (e : Effect) : string :=
  match e with
  | report_scalar _ _ series _ _ => series
  | add_histogram _ _ series _ _ => series
  | _ => ""
  end.

(** A logging call made on the objects of the logger [lg], or a warning. *)
Definition sent_to (lg : TrainsLogger) (e : Effect) : Prop :=
  match e with
  | report_scalar receiver _ _ _ _ => receiver = trains_logger lg
  | add_histogram receiver _ _ _ _ => receiver = grad_helper lg
  | warn _ => True
  | _ => False
  end.

(** The logger a handler reports to, when the argument is a
    [TrainsLogger]. *)
Definition sent_to_arg (logger : LoggerArg) (e : Effect) : Prop :=
  match logger with
  | ATrainsLogger lg => sent_to lg e
  | OtherLogger _ => False
  end.

(** The second world is the first with calls added to the trace, all of
    them satisfying [P]; nothing else differs. *)
Definition only_adds (P : Effect -> Prop) (w w' : World) : Prop :=
  exists es, w' = add_effects es w /\ Forall P es.

(** The SDK object that ends up receiving the call. *)
Definition final_receiver (e : Effect) : option SdkObject :=
  match e with
  | report_scalar receiver _ _ _ _ => Some receiver
  | add_histogram receiver _ _ _ _ => Some (helper_logger receiver)
  | _ => None
  end.

Definition contains (c : ascii) (s : string) : bool :=
  existsb (Ascii.eqb c) (list_ascii_of_string s).

(** The second world differs from the first by logging calls added at
    the end of the trace, all made on the given logger. *)
Definition logs_only (logger : LoggerArg) (w w' : World) : Prop :=
  trains_installed w' = trains_installed w /\
  environ w' = environ w /\
  _bypass w' = _bypass w /\
  files w' = files w /\
  current_task w' = current_task w /\
  effects w' = effects w ++ new_effects w w' /\
  Forall (sent_to_arg logger) (new_effects w w').

(** The value of [TrainsLogger.bypass_mode()] in a world. *)
Definition bypass_flag (w : World) : bool :=
  match _bypass w with
  | Some b => b
  | None => truthy (dict_get "CI" (environ w))
  end.

(** The logger that [TrainsLogger.__init__] builds around a task. *)
Definition logger_around (task : SdkObject) (kwargs : Dict PyValue)
  : TrainsLogger :=
  {| _task := task;
     trains_logger := get_logger task;
     grad_helper :=
       {| helper_logger := get_logger task;
          report_freq := kwargs_get "report_freq" (PyInt 100) kwargs;
          histogram_update_freq_multiplier :=
            kwargs_get "histogram_update_freq_multiplier" (PyInt 10) kwargs;
          histogram_granularity :=
            kwargs_get "histogram_granularity" (PyInt 50) kwargs |} |}.

Definition is_set_output_uri (e : Effect) : bool :=
  match e with
  | set_output_uri _ _ => true
  | _ => false
  end.

(** ** Lemmas on traces and loops *)

Lemma add_effects_nil (w : World) : add_effects [] w = w.
Proof.
  destruct w; unfold add_effects; simpl. now rewrite app_nil_r.
Qed.

Lemma add_effects_app (es1 es2 : list Effect) (w : World) :
  add_effects es2 (add_effects es1 w) = add_effects (es1 ++ es2) w.
Proof.
  unfold add_effects; simpl. now rewrite app_assoc.
Qed.

Lemma new_effects_add (es : list Effect) (w : World) :
  new_effects w (add_effects es w) = es.
Proof.
  unfold new_effects, add_effects; simpl.
  induction (effects w) as [|e l IH]; simpl; auto.
Qed.

Lemma new_effects_same (w : World) : new_effects w w = [].
Proof.
  rewrite <- (add_effects_nil w) at 2. apply new_effects_add.
Qed.

(** A loop whose body only adds to the trace adds the bodies' effects in
    order and returns. *)
Lemma for_each_emits {Self A} (f : A -> list Effect) (body : A -> M Self unit)
    (l : list A) :
  (forall x s w, In x l -> body x s w = (s, add_effects (f x) w, Ok tt)) ->
  forall s w, for_each l body s w = (s, add_effects (flat_map f l) w, Ok tt).
Proof.
  induction l as [|x l IH]; intros Hbody s w; simpl.
  - unfold ret. now rewrite add_effects_nil.
  - unfold bind. rewrite Hbody by (now left).
    rewrite IH by (intros; apply Hbody; now right).
    now rewrite add_effects_app.
Qed.

(** A loop whose body leaves [self] alone leaves it alone. *)
Lemma for_each_self {Self A} (body : A -> M Self unit) (l : list A) :
  (forall x s w, self_of (body x s w) = s) ->
  forall s w, self_of (for_each l body s w) = s.
Proof.
  intros Hbody. induction l as [|x l IH]; intros s w; simpl; auto.
  unfold bind. specialize (Hbody x s w).
  destruct (body x s w) as [[s1 w1] [[]|e]]; unfold self_of in Hbody;
    simpl in Hbody; subst s1.
  - apply IH.
  - reflexivity.
Qed.

Lemma reports_for_app (series : string) (es1 es2 : list Effect) :
  reports_for series (es1 ++ es2)
  = reports_for series es1 ++ reports_for series es2.
Proof. apply filter_app. Qed.

(** Entries under other keys add no report for the series. *)
Lemma reports_for_absent {V} (f : string * V -> list Effect) (series : string)
    (d : Dict V) :
  (forall k v, k <> series -> reports_for series (f (k, v)) = []) ->
  ~ In series (keys d) ->
  reports_for series (flat_map f d) = [].
Proof.
  intros Hf. induction d as [|[k v] d IH]; simpl; intros Hnot; auto.
  rewrite reports_for_app, Hf, IH; auto.
Qed.

(** In a dictionary the reports made for a key come from its entry. *)
Lemma reports_for_entry {V} (f : string * V -> list Effect) (series : string)
    (v : V) (d : Dict V) :
  (forall k v', k <> series -> reports_for series (f (k, v')) = []) ->
  NoDup (keys d) ->
  In (series, v) d ->
  reports_for series (flat_map f d) = reports_for series (f (series, v)).
Proof.
  intros Hf. induction d as [|[k v'] d IH]; simpl; intros Hnd Hin.
  - contradiction.
  - inversion Hnd as [|? ? Hk Hnd']; subst.
    rewrite reports_for_app. destruct Hin as [Heq | Hin].
    + inversion Heq; subst.
      rewrite (reports_for_absent f series d Hf Hk). apply app_nil_r.
    + assert (k <> series) as Hne.
      { intros ->. apply Hk. unfold keys.
        change series with (fst (series, v)). now apply in_map. }
      rewrite (Hf k v' Hne), IH; auto.
Qed.

Lemma reports_for_self (r : SdkObject) (title series : string)
    (iteration value : PyValue) :
  reports_for series [report_scalar r title series iteration value]
  = [report_scalar r title series iteration value].
Proof. simpl. now rewrite String.eqb_refl. Qed.

Lemma reports_for_differ (r : SdkObject) (title k series : string)
    (iteration value : PyValue) :
  k <> series ->
  reports_for series [report_scalar r title k iteration value] = [].
Proof.
  intros Hne. simpl. destruct (String.eqb_spec k series); congruence.
Qed.

(** ** OutputHandler *)

Section OutputHandlerProperties.

Variable _setup_output_metrics :
  BaseOutputHandler -> Engine -> Result (Dict PyValue).

Lemma OutputHandler_call_trace (self : BaseOutputHandler) (engine : Engine)
    (lg : TrainsLogger) (event_name : string) (w : World)
    (metrics : Dict PyValue) (global_step : PyValue) :
  _setup_output_metrics self engine = Ok metrics ->
  global_step_transform self engine event_name = Ok global_step ->
  isinstance_int global_step = true ->
  OutputHandler_call _setup_output_metrics engine (ATrainsLogger lg)
    event_name self w
  = (self,
     add_effects
       (flat_map (output_entry lg (oh_tag self) global_step) metrics) w,
     Ok tt).
Proof.
  intros Hm Hg Hint. unfold OutputHandler_call, bind, get_self, lift.
  rewrite Hm, Hg, Hint. simpl negb. cbv iota.
  apply for_each_emits. intros [k v] s w' _. unfold output_entry. simpl.
  destruct (isinstance_float_int v); reflexivity.
Qed.

Lemma output_entry_other (lg : TrainsLogger) (tag : string)
    (global_step : PyValue) (series : string) :
  forall k v, k <> series ->
    reports_for series (output_entry lg tag global_step (k, v)) = [].
Proof.
  intros k v Hne. unfold output_entry. simpl fst. simpl snd.
  destruct (isinstance_float_int v).
  - now apply reports_for_differ.
  - reflexivity.
Qed.

(** C5.  When the logger is a [TrainsLogger] and the global step is an
    integer, [OutputHandler.__call__] returns, and for every entry
    [(key, value)] of the extracted metrics: if [value] is an int or a
    float, the [report_scalar] calls made with series [key] are exactly
    one call, with the handler's tag as title, the global step as
    iteration and [value] as value; otherwise no [report_scalar] call is
    made with series [key] and a warning is emitted. *)
Theorem OutputHandler_call_reports (self : BaseOutputHandler)
    (engine : Engine) (lg : TrainsLogger) (event_name : string) (w : World)
    (metrics : Dict PyValue) (global_step : PyValue) :
  _setup_output_metrics self engine = Ok metrics ->
  NoDup (keys metrics) ->
  global_step_transform self engine event_name = Ok global_step ->
  isinstance_int global_step = true ->
  let out := OutputHandler_call _setup_output_metrics engine
               (ATrainsLogger lg) event_name self w in
  result_of out = Ok tt /\
  forall key value, In (key, value) metrics ->
    if isinstance_float_int value then
      reports_for key (new_effects w (world_of out))
      = [report_scalar (trains_logger lg) (oh_tag self) key global_step value]
    else
      reports_for key (new_effects w (world_of out)) = [] /\
      In (warn ("TrainsLogger output_handler can not log metrics value type "
                ++ format_type value))
         (new_effects w (world_of out)).
Proof.
  intros Hm Hnd Hg Hint out. subst out.
  rewrite (OutputHandler_call_trace self engine lg event_name w metrics
             global_step Hm Hg Hint).
  unfold result_of, world_of. simpl. split; [reflexivity|].
  intros key value Hin. rewrite new_effects_add.
  rewrite (reports_for_entry _ key value metrics
             (output_entry_other lg (oh_tag self) global_step key) Hnd Hin).
  unfold output_entry at 1 2. simpl fst. simpl snd.
  destruct (isinstance_float_int value) eqn:Hnum.
  - apply reports_for_self.
  - split; [reflexivity|].
    apply in_flat_map. exists (key, value). split; auto.
    unfold output_entry. simpl. rewrite Hnum. now left.
Qed.

End OutputHandlerProperties.

(** Witness of C5 on the sample engine: one numeric metric, one tensor. *)
Lemma OutputHandler_call_reports_witness :
  let out := OutputHandler_call Sample.all_metrics Sample.engine
               (ATrainsLogger Sample.trains) "epoch_completed"
               Sample.output_handler Sample.world in
  result_of out = Ok tt /\
  forall key value, In (key, value) (state_metrics Sample.engine) ->
    if isinstance_float_int value then
      reports_for key (new_effects Sample.world (world_of out))
      = [report_scalar SdkLogger "validation" key (PyInt 7) value]
    else
      reports_for key (new_effects Sample.world (world_of out)) = [] /\
      In (warn ("TrainsLogger output_handler can not log metrics value type "
                ++ format_type value))
         (new_effects Sample.world (world_of out)).
Proof.
  apply (OutputHandler_call_reports Sample.all_metrics Sample.output_handler
           Sample.engine Sample.trains "epoch_completed" Sample.world
           (state_metrics Sample.engine) (PyInt 7)).
  - reflexivity.
  - simpl. repeat constructor; simpl; intuition discriminate.
  - reflexivity.
  - reflexivity.
Defined.

(** ** OptimizerParamsHandler *)

Lemma append_assoc (a b c : string) : ((a ++ b) ++ c = a ++ (b ++ c))%string.
Proof. induction a as [|x a IH]; simpl; [reflexivity | now rewrite IH]. Qed.

Lemma str_of_nat_inj (i j : nat) : str_of_nat i = str_of_nat j -> i = j.
Proof.
  unfold str_of_nat. intros H. apply Unsigned.to_uint_inj.
  apply (f_equal NilEmpty.uint_of_string) in H.
  rewrite !NilEmpty.usu in H. congruence.
Qed.

Lemma keys_app {V} (d1 d2 : Dict V) : keys (d1 ++ d2) = keys d1 ++ keys d2.
Proof. apply map_app. Qed.

(** Setting a key that is not in the dictionary adds it at the end. *)
Lemma dict_set_fresh {V} (k : string) (v : V) (d : Dict V) :
  ~ In k (keys d) -> dict_set k v d = d ++ [(k, v)].
Proof.
  induction d as [|[k' v'] d IH]; simpl; intros Hnot; auto.
  destruct (String.eqb_spec k k') as [->|Hne].
  - exfalso. apply Hnot. now left.
  - rewrite IH; auto.
Qed.

Lemma str_of_nat_seq_NoDup (i n : nat) : NoDup (map str_of_nat (seq i n)).
Proof.
  revert i. induction n as [|n IH]; intros i; simpl; constructor; auto.
  intros Hin. apply in_map_iff in Hin. destruct Hin as [j [Hj Hin]].
  apply str_of_nat_inj in Hj. subst j. apply in_seq in Hin. lia.
Qed.

Section OptimizerParamsProperties.

Variable float_of_object : PyValue -> Result Q.

(** The dictionary comprehension of [OptimizerParamsHandler.__call__]:
    when every group has a value that [float] accepts, it returns, with
    one entry per group, in order, under the key of the group's index. *)
Lemma params_dict_entries (name : string) (groups : list (Dict PyValue)) :
  (forall pg, In pg groups -> is_ok (param_value float_of_object name pg) = true) ->
  forall i acc,
    (forall k, In k (keys acc) -> exists j, (j < i)%nat /\ k = str_of_nat j) ->
    exists d,
      params_dict float_of_object name i groups acc = Ok (acc ++ d) /\
      keys d = map str_of_nat (seq i (length groups)) /\
      forall n pg v,
        nth_error groups n = Some pg ->
        param_value float_of_object name pg = Ok v ->
        In (str_of_nat (i + n)%nat, v) d.
Proof.
  induction groups as [|g rest IH]; intros Hok i acc Hacc.
  - exists []. simpl. rewrite app_nil_r. repeat split; auto.
    intros [|n] pg v Hn; discriminate.
  - simpl. pose proof (Hok g (or_introl eq_refl)) as Hg.
    destruct (param_value float_of_object name g) as [v|e] eqn:Hv;
      [clear Hg | discriminate Hg].
    rewrite dict_set_fresh.
    2:{ intros Hin. destruct (Hacc _ Hin) as [j [Hlt Heq]].
        apply str_of_nat_inj in Heq. lia. }
    destruct (IH (fun pg H => Hok pg (or_intror H)) (S i)
                (acc ++ [(str_of_nat i, v)])) as [d [Hd [Hk Hin]]].
    { intros k Hk. rewrite keys_app in Hk. apply in_app_or in Hk.
      destruct Hk as [Hk | [<- | []]].
      - destruct (Hacc k Hk) as [j [Hlt Heq]]. exists j. split; [lia | auto].
      - exists i. split; [lia | reflexivity]. }
    exists ((str_of_nat i, v) :: d). split; [|split].
    + rewrite Hd, <- app_assoc. reflexivity.
    + simpl. now rewrite Hk.
    + intros [|n] pg v' Hn Hpv; simpl in Hn.
      * inversion Hn; subst pg. rewrite Hv in Hpv. inversion Hpv; subst v'.
        left. now rewrite Nat.add_0_r.
      * right. replace (i + S n)%nat with (S i + n)%nat by lia. eapply Hin; eauto.
Qed.

Lemma param_value_lookup (name : string) (pg : Dict PyValue) (x : PyValue) :
  dict_get name pg = Some x ->
  param_value float_of_object name pg = py_float float_of_object x.
Proof. intros H. unfold param_value. now rewrite H. Qed.

Lemma param_value_defined (name : string) (groups : list (Dict PyValue)) :
  (forall pg, In pg groups ->
     exists x v, dict_get name pg = Some x
                 /\ py_float float_of_object x = Ok v) ->
  forall pg, In pg groups ->
    is_ok (param_value float_of_object name pg) = true.
Proof.
  intros H pg Hin. destruct (H pg Hin) as [x [v [Hx Hv]]].
  now rewrite (param_value_lookup name pg x Hx), Hv.
Qed.

(** C6, amended.  With a [TrainsLogger], when the engine gives a global
    step and every parameter group holds the parameter with a value that
    [float] converts, the handler returns and, for every group at index
    [i], the [report_scalar] calls made with series [str(i)] are exactly
    one call, with value [float(param_group[param_name])], the event's
    global step as iteration, and title ["{tag}/{param_name}"] when the
    tag is a non-empty string and ["{param_name}"] otherwise. *)
Theorem OptimizerParamsHandler_call_reports
    (self : BaseOptimizerParamsHandler) (engine : Engine) (lg : TrainsLogger)
    (event_name : string) (w : World) (global_step : Z) :
  get_event_attrib_value engine event_name = Ok global_step ->
  (forall pg, In pg (param_groups (optimizer self)) ->
     exists x v, dict_get (param_name self) pg = Some x
                 /\ py_float float_of_object x = Ok v) ->
  let out := OptimizerParamsHandler_call float_of_object engine
               (ATrainsLogger lg) event_name self w in
  result_of out = Ok tt /\
  forall i param_group x v,
    nth_error (param_groups (optimizer self)) i = Some param_group ->
    dict_get (param_name self) param_group = Some x ->
    py_float float_of_object x = Ok v ->
    reports_for (str_of_nat i) (new_effects w (world_of out))
    = [report_scalar (trains_logger lg)
         (if truthy (op_tag self)
          then from_option (op_tag self) ++ "/" ++ param_name self
          else param_name self)
         (str_of_nat i) (PyInt global_step) (PyFloat v)].
Proof.
  intros Hstep Hdef out. subst out.
  pose proof (param_value_defined (param_name self)
                (param_groups (optimizer self)) Hdef) as Hok.
  destruct (params_dict_entries (param_name self)
              (param_groups (optimizer self)) Hok 0 [])
    as [d [Hd [Hkeys Hin]]].
  { intros k []. }
  simpl in Hd.
  set (title := (tag_prefix_of (op_tag self) ++ param_name self)%string).
  set (f := fun kv : string * Q =>
              [report_scalar (trains_logger lg) title (fst kv)
                 (PyInt global_step) (PyFloat (snd kv))]).
  assert (OptimizerParamsHandler_call float_of_object engine
            (ATrainsLogger lg) event_name self w
          = (self, add_effects (flat_map f d) w, Ok tt)) as Hcall.
  { unfold OptimizerParamsHandler_call, bind, get_self, lift.
    rewrite Hstep, Hd. apply for_each_emits. intros [k v] s w' _.
    reflexivity. }
  rewrite Hcall. unfold result_of, world_of. simpl.
  split; [reflexivity|]. intros i pg x v Hnth Hx Hv.
  rewrite new_effects_add.
  rewrite (reports_for_entry f (str_of_nat i) v d).
  - unfold f. simpl fst. simpl snd. rewrite reports_for_self.
    do 2 f_equal. unfold title, tag_prefix_of.
    destruct (op_tag self) as [[|c t]|]; simpl; auto.
    now rewrite append_assoc.
  - intros k v' Hne. unfold f. now apply reports_for_differ.
  - rewrite Hkeys. apply str_of_nat_seq_NoDup.
  - apply (Hin i pg v Hnth).
    now rewrite (param_value_lookup (param_name self) pg x Hx).
Qed.

End OptimizerParamsProperties.

(** Witness of C6, amended: the learning rates of the two groups of the
    sample optimizer, and a step count that is too long for a double and
    is reported rounded. *)
Lemma OptimizerParamsHandler_call_reports_witness :
  (let new := new_effects Sample.world
                (world_of (OptimizerParamsHandler_call Sample.no_conversion
                             Sample.engine (ATrainsLogger Sample.trains)
                             "iteration_completed" Sample.lr_handler
                             Sample.world)) in
   reports_for "0" new
   = [report_scalar SdkLogger "generator/lr" "0" (PyInt 7)
        (PyFloat (1 # 10))] /\
   reports_for "1" new
   = [report_scalar SdkLogger "generator/lr" "1" (PyInt 7)
        (PyFloat (1 # 100))]) /\
  reports_for "0"
    (new_effects Sample.world
       (world_of (OptimizerParamsHandler_call Sample.no_conversion
                    Sample.engine (ATrainsLogger Sample.trains)
                    "iteration_completed" Sample.steps_handler
                    Sample.world)))
  = [report_scalar SdkLogger "steps" "0" (PyInt 7)
       (PyFloat 9007199254740992)].
Proof.
  assert (forall pg, In pg (param_groups Sample.sgd) ->
            exists x v, dict_get "lr" pg = Some x
                        /\ py_float Sample.no_conversion x = Ok v) as Hlr.
  { simpl. intros pg [<- | [<- | []]]; eexists; eexists; split; reflexivity. }
  assert (forall pg, In pg (param_groups Sample.counting) ->
            exists x v, dict_get "steps" pg = Some x
                        /\ py_float Sample.no_conversion x = Ok v) as Hsteps.
  { simpl. intros pg [<- | []]. eexists. eexists. split; [reflexivity|].
    vm_compute. reflexivity. }
  pose proof (OptimizerParamsHandler_call_reports Sample.no_conversion
                Sample.lr_handler Sample.engine Sample.trains
                "iteration_completed" Sample.world 7%Z eq_refl Hlr)
    as [_ Hreports].
  pose proof (OptimizerParamsHandler_call_reports Sample.no_conversion
                Sample.steps_handler Sample.engine Sample.trains
                "iteration_completed" Sample.world 7%Z eq_refl Hsteps)
    as [_ Hrounded].
  split; [split|].
  - apply (Hreports 0%nat _ (PyFloat (1 # 10)) (1 # 10) eq_refl eq_refl
             eq_refl).
  - apply (Hreports 1%nat _ (PyFloat (1 # 100)) (1 # 100) eq_refl eq_refl
             eq_refl).
  - apply (Hrounded 0%nat _ (PyInt (2 ^ 53 + 1)) 9007199254740992 eq_refl
             eq_refl).
    vm_compute. reflexivity.
Defined.

(** Counterexample of C6: asked for [betas], which the groups of the
    sample optimizer do not hold, the handler raises [KeyError] and makes
    no call, for the group at index 0 or any other. *)
Lemma missing_parameter_counterexample :
  let out := OptimizerParamsHandler_call Sample.no_conversion Sample.engine
               (ATrainsLogger Sample.trains) "iteration_completed"
               Sample.betas_handler Sample.world in
  result_of out = Raise (KeyError "betas") /\
  nth_error (param_groups (optimizer Sample.betas_handler)) 0
  = Some [("lr", PyFloat (1 # 10)); ("momentum", PyInt 0)] /\
  ~ (exists e, reports_for (str_of_nat 0)
                 (new_effects Sample.world (world_of out)) = [e]).
Proof.
  repeat split. intros [e H]. discriminate H.
Qed.

(** ** The weight and gradient handlers *)

Lemma WeightsScalarHandler_call_trace (self : BaseWeightsScalarHandler)
    (engine : Engine) (lg : TrainsLogger) (event_name : string) (w : World)
    (global_step : Z) :
  get_event_attrib_value engine event_name = Ok global_step ->
  WeightsScalarHandler_call engine (ATrainsLogger lg) event_name self w
  = (self,
     add_effects
       (flat_map (scalar_entry lg "weights_" self global_step)
          (named_parameters (ws_model self))) w,
     Ok tt).
Proof.
  intros Hstep. unfold WeightsScalarHandler_call, bind, get_self, lift.
  rewrite Hstep. apply for_each_emits. intros [name p] s w' _.
  unfold scalar_entry. simpl.
  destruct (grad p); [|unfold ret; now rewrite add_effects_nil].
  destruct (partition_dot name) as [[title_name sep] series_name].
  reflexivity.
Qed.

Lemma GradsScalarHandler_call_trace (self : BaseWeightsScalarHandler)
    (engine : Engine) (lg : TrainsLogger) (event_name : string) (w : World)
    (global_step : Z) :
  get_event_attrib_value engine event_name = Ok global_step ->
  GradsScalarHandler_call engine (ATrainsLogger lg) event_name self w
  = (self,
     add_effects
       (flat_map (scalar_entry lg "grads_" self global_step)
          (named_parameters (ws_model self))) w,
     Ok tt).
Proof.
  intros Hstep. unfold GradsScalarHandler_call, bind, get_self, lift.
  rewrite Hstep. apply for_each_emits. intros [name p] s w' _.
  unfold scalar_entry. simpl.
  destruct (grad p); [|unfold ret; now rewrite add_effects_nil].
  destruct (partition_dot name) as [[title_name sep] series_name].
  reflexivity.
Qed.

Lemma WeightsHistHandler_call_trace (self : BaseWeightsHistHandler)
    (engine : Engine) (lg : TrainsLogger) (event_name : string) (w : World)
    (global_step : Z) :
  get_event_attrib_value engine event_name = Ok global_step ->
  WeightsHistHandler_call engine (ATrainsLogger lg) event_name self w
  = (self,
     add_effects
       (flat_map (hist_entry lg "weights_" self global_step)
          (named_parameters (wh_model self))) w,
     Ok tt).
Proof.
  intros Hstep. unfold WeightsHistHandler_call, bind, get_self, lift.
  rewrite Hstep. apply for_each_emits. intros [name p] s w' _.
  unfold hist_entry. simpl.
  destruct (grad p); [|unfold ret; now rewrite add_effects_nil].
  destruct (partition_dot name) as [[title_name sep] series_name].
  reflexivity.
Qed.

Lemma GradsHistHandler_call_trace (self : BaseWeightsHistHandler)
    (engine : Engine) (lg : TrainsLogger) (event_name : string) (w : World)
    (global_step : Z) :
  get_event_attrib_value engine event_name = Ok global_step ->
  GradsHistHandler_call engine (ATrainsLogger lg) event_name self w
  = (self,
     add_effects
       (flat_map (hist_entry lg "grads_" self global_step)
          (named_parameters (wh_model self))) w,
     Ok tt).
Proof.
  intros Hstep. unfold GradsHistHandler_call, bind, get_self, lift.
  rewrite Hstep. apply for_each_emits. intros [name p] s w' _.
  unfold hist_entry. simpl.
  destruct (grad p); [|unfold ret; now rewrite add_effects_nil].
  destruct (partition_dot name) as [[title_name sep] series_name].
  reflexivity.
Qed.

(** An entry that adds nothing can be left out of the list. *)
Lemma flat_map_skip {A B} (f : A -> list B) (x : A) (pre post : list A) :
  f x = [] -> flat_map f (pre ++ x :: post) = flat_map f (pre ++ post).
Proof.
  intros Hx. rewrite !flat_map_app. simpl. now rewrite Hx.
Qed.

Ltac handler_cases engine event_name logger :=
  destruct logger as [lg | cls];
  [ destruct (get_event_attrib_value engine event_name) as [step | e] eqn:Hstep
  | ].

(** C10.  A parameter whose [grad] is [None] is skipped by the four
    weight and gradient handlers: each of them leaves the same trace and
    returns the same result as on the model without that parameter. *)
Theorem handlers_skip_parameters_without_grad (engine : Engine)
    (logger : LoggerArg) (event_name : string) (w : World)
    (name : string) (p : Param) (pre post : list (string * Param)) :
  grad p = None ->
  (forall self,
     outcome (WeightsScalarHandler_call engine logger event_name
                (scalar_handler_on (pre ++ (name, p) :: post) self) w)
     = outcome (WeightsScalarHandler_call engine logger event_name
                  (scalar_handler_on (pre ++ post) self) w)) /\
  (forall self,
     outcome (WeightsHistHandler_call engine logger event_name
                (hist_handler_on (pre ++ (name, p) :: post) self) w)
     = outcome (WeightsHistHandler_call engine logger event_name
                  (hist_handler_on (pre ++ post) self) w)) /\
  (forall self,
     outcome (GradsScalarHandler_call engine logger event_name
                (scalar_handler_on (pre ++ (name, p) :: post) self) w)
     = outcome (GradsScalarHandler_call engine logger event_name
                  (scalar_handler_on (pre ++ post) self) w)) /\
  (forall self,
     outcome (GradsHistHandler_call engine logger event_name
                (hist_handler_on (pre ++ (name, p) :: post) self) w)
     = outcome (GradsHistHandler_call engine logger event_name
                  (hist_handler_on (pre ++ post) self) w)).
Proof.
  intros Hgrad. repeat split; intros self;
    handler_cases engine event_name logger.
  all: try reflexivity.
  all: try (unfold WeightsScalarHandler_call, WeightsHistHandler_call,
              GradsScalarHandler_call, GradsHistHandler_call,
              bind, get_self, lift; rewrite Hstep; reflexivity).
  - rewrite !(WeightsScalarHandler_call_trace _ _ _ _ _ _ Hstep).
    unfold outcome, world_of, result_of; simpl.
    rewrite flat_map_skip; [reflexivity|].
    unfold scalar_entry; simpl. now rewrite Hgrad.
  - rewrite !(WeightsHistHandler_call_trace _ _ _ _ _ _ Hstep).
    unfold outcome, world_of, result_of; simpl.
    rewrite flat_map_skip; [reflexivity|].
    unfold hist_entry; simpl. now rewrite Hgrad.
  - rewrite !(GradsScalarHandler_call_trace _ _ _ _ _ _ Hstep).
    unfold outcome, world_of, result_of; simpl.
    rewrite flat_map_skip; [reflexivity|].
    unfold scalar_entry; simpl. now rewrite Hgrad.
  - rewrite !(GradsHistHandler_call_trace _ _ _ _ _ _ Hstep).
    unfold outcome, world_of, result_of; simpl.
    rewrite flat_map_skip; [reflexivity|].
    unfold hist_entry; simpl. now rewrite Hgrad.
Qed.

(** Witness of C10: the bias of the sample network has no gradient. *)
Lemma handlers_skip_parameters_without_grad_witness :
  outcome (WeightsScalarHandler_call Sample.engine
             (ATrainsLogger Sample.trains) "iteration_completed"
             Sample.scalar_handler Sample.world)
  = outcome (WeightsScalarHandler_call Sample.engine
               (ATrainsLogger Sample.trains) "iteration_completed"
               (scalar_handler_on
                  [("fc1.weight", {| data := [1; 2]; grad := Some [5; 6] |})]
                  Sample.scalar_handler)
               Sample.world).
Proof.
  apply (handlers_skip_parameters_without_grad Sample.engine
           (ATrainsLogger Sample.trains) "iteration_completed" Sample.world
           "fc1.bias" {| data := [3]; grad := None |}
           [("fc1.weight", {| data := [1; 2]; grad := Some [5; 6] |})] []
           eq_refl).
Defined.

(** ** Handlers keep their fields *)

Ltac run_handler :=
  unfold OutputHandler_call, OptimizerParamsHandler_call,
    WeightsScalarHandler_call, WeightsHistHandler_call,
    GradsScalarHandler_call, GradsHistHandler_call,
    bind, get_self, lift, raise.

Ltac loop_keeps_self :=
  apply for_each_self; intros [? ?] ? ?;
  repeat match goal with
         | |- context [match ?x with _ => _ end] => destruct x
         end;
  reflexivity.

(** C8.  Whatever the engine, the logger and the event, and whether the
    call returns or raises, the handler object after [__call__] is the
    handler object before it: no field of any of the six handlers is
    assigned. *)
Theorem handlers_are_stateless
    (_setup_output_metrics :
       BaseOutputHandler -> Engine -> Result (Dict PyValue))
    (float_of_object : PyValue -> Result Q)
    (engine : Engine) (logger : LoggerArg) (event_name : string)
    (w : World) :
  (forall self,
     self_of (OutputHandler_call _setup_output_metrics engine logger
                event_name self w) = self) /\
  (forall self,
     self_of (OptimizerParamsHandler_call float_of_object engine logger
                event_name self w) = self) /\
  (forall self,
     self_of (WeightsScalarHandler_call engine logger event_name self w)
     = self) /\
  (forall self,
     self_of (WeightsHistHandler_call engine logger event_name self w)
     = self) /\
  (forall self,
     self_of (GradsScalarHandler_call engine logger event_name self w)
     = self) /\
  (forall self,
     self_of (GradsHistHandler_call engine logger event_name self w)
     = self).
Proof.
  repeat split; intros self; destruct logger as [lg | cls];
    try reflexivity; run_handler.
  - destruct (_setup_output_metrics self engine) as [metrics | e];
      [|reflexivity].
    destruct (global_step_transform self engine event_name) as [g | e];
      [|reflexivity].
    destruct (isinstance_int g); simpl; [|reflexivity].
    loop_keeps_self.
  - destruct (get_event_attrib_value engine event_name) as [g | e];
      [|reflexivity].
    destruct (params_dict float_of_object (param_name self) 0
                (param_groups (optimizer self)) []) as [params | e];
      [|reflexivity].
    loop_keeps_self.
  - destruct (get_event_attrib_value engine event_name) as [g | e];
      [|reflexivity].
    loop_keeps_self.
  - destruct (get_event_attrib_value engine event_name) as [g | e];
      [|reflexivity].
    loop_keeps_self.
  - destruct (get_event_attrib_value engine event_name) as [g | e];
      [|reflexivity].
    loop_keeps_self.
  - destruct (get_event_attrib_value engine event_name) as [g | e];
      [|reflexivity].
    loop_keeps_self.
Qed.

(** ** Type mismatches *)

(** Counterexample of C3: with a logger of another class the output
    handler does not warn and return, it raises. *)
Lemma wrong_logger_raises_counterexample :
  let out := OutputHandler_call Sample.all_metrics Sample.engine
               (OtherLogger "TensorboardLogger") "epoch_completed"
               Sample.output_handler Sample.world in
  result_of out
  = Raise (RuntimeError "Handler OutputHandler works only with TrainsLogger")
  /\ ~ (is_ok (result_of out) = true
        /\ existsb is_warning (new_effects Sample.world (world_of out))
           = true).
Proof.
  split; [reflexivity|]. intros [H _]. discriminate H.
Qed.

(** C3, amended.  A logger that is not a [TrainsLogger] makes each of the
    six handlers raise [RuntimeError], and the constructor of
    [TrainsSaver] raise [TypeError]; a global step that is not an integer
    makes [OutputHandler] raise [TypeError]; in these cases nothing is
    reported or warned.  Only a metric value that is neither int nor
    float is met with a warning, and the call returns. *)
Theorem type_mismatches
    (_setup_output_metrics :
       BaseOutputHandler -> Engine -> Result (Dict PyValue))
    (float_of_object : PyValue -> Result Q)
    (DiskSaver_init :
       string -> Dict PyValue -> list string -> list string * Result DiskSaver)
    (engine : Engine) (event_name : string) (w : World) :
  (forall cls,
     (forall self,
        OutputHandler_call _setup_output_metrics engine (OtherLogger cls)
          event_name self w
        = (self, w, Raise (RuntimeError
             "Handler OutputHandler works only with TrainsLogger"))) /\
     (forall self,
        OptimizerParamsHandler_call float_of_object engine (OtherLogger cls)
          event_name self w
        = (self, w, Raise (RuntimeError
             "Handler OptimizerParamsHandler works only with TrainsLogger"))) /\
     (forall self,
        WeightsScalarHandler_call engine (OtherLogger cls) event_name self w
        = (self, w, Raise (RuntimeError
             "Handler WeightsScalarHandler works only with TrainsLogger"))) /\
     (forall self,
        WeightsHistHandler_call engine (OtherLogger cls) event_name self w
        = (self, w, Raise (RuntimeError
             "Handler 'WeightsHistHandler' works only with TrainsLogger"))) /\
     (forall self,
        GradsScalarHandler_call engine (OtherLogger cls) event_name self w
        = (self, w, Raise (RuntimeError
             "Handler GradsScalarHandler works only with TrainsLogger"))) /\
     (forall self,
        GradsHistHandler_call engine (OtherLogger cls) event_name self w
        = (self, w, Raise (RuntimeError
             "Handler 'GradsHistHandler' works only with TrainsLogger"))) /\
     (forall output_uri dirname kwargs,
        TrainsSaver_init DiskSaver_init (OtherLogger cls) output_uri dirname
          kwargs tt w
        = (tt, w, Raise (TypeError
             "logger must be an instance of TrainsLogger")))) /\
  (forall self lg metrics global_step,
     _setup_output_metrics self engine = Ok metrics ->
     global_step_transform self engine event_name = Ok global_step ->
     isinstance_int global_step = false ->
     OutputHandler_call _setup_output_metrics engine (ATrainsLogger lg)
       event_name self w
     = (self, w, Raise (TypeError
          ("global_step must be int, got " ++ format_type global_step
           ++ ". Please check the output of global_step_transform.")))) /\
  (forall self lg metrics global_step key value,
     _setup_output_metrics self engine = Ok metrics ->
     global_step_transform self engine event_name = Ok global_step ->
     isinstance_int global_step = true ->
     In (key, value) metrics ->
     isinstance_float_int value = false ->
     let out := OutputHandler_call _setup_output_metrics engine
                  (ATrainsLogger lg) event_name self w in
     result_of out = Ok tt /\
     In (warn ("TrainsLogger output_handler can not log metrics value type "
               ++ format_type value))
        (new_effects w (world_of out))).
Proof.
  split; [|split].
  - intros cls. repeat split.
  - intros self lg metrics g Hm Hg Hint.
    unfold OutputHandler_call, bind, get_self, lift.
    now rewrite Hm, Hg, Hint.
  - intros self lg metrics g key value Hm Hg Hint Hin Hnum out. subst out.
    rewrite (OutputHandler_call_trace _setup_output_metrics self engine lg
               event_name w metrics g Hm Hg Hint).
    unfold result_of, world_of. simpl. split; [reflexivity|].
    rewrite new_effects_add. apply in_flat_map. exists (key, value).
    split; auto. unfold output_entry. simpl. rewrite Hnum. now left.
Qed.

(** Witness of C3, amended: a float global step on the sample engine. *)
Lemma type_mismatches_witness :
  OutputHandler_call Sample.all_metrics Sample.engine
    (ATrainsLogger Sample.trains) "epoch_completed"
    Sample.float_step_handler Sample.world
  = (Sample.float_step_handler, Sample.world,
     Raise (TypeError
       "global_step must be int, got <class 'float'>. Please check the output of global_step_transform.")).
Proof.
  apply (proj1 (proj2 (type_mismatches Sample.all_metrics Sample.no_conversion
                         Sample.disk_init Sample.engine "epoch_completed"
                         Sample.world))
           Sample.float_step_handler Sample.trains
           (state_metrics Sample.engine) (PyFloat (7 # 2))); reflexivity.
Defined.

(** ** The missing package *)

Lemma new_effects_with_files (w w' : World) (fs : list string) :
  new_effects w (with_files fs w') = new_effects w w'.
Proof. reflexivity. Qed.

(** What [TrainsSaver.__call__] leaves behind: the local save, then the
    upload if there is one. *)
Lemma TrainsSaver_call_trace
    (DiskSaver_call :
       DiskSaver -> Dict PyValue -> string -> list string ->
       list string * Result unit)
    (self : TrainsSaver) (checkpoint : Dict PyValue) (filename : string)
    (w : World) :
  let saved := DiskSaver_call (base self) checkpoint filename (files w) in
  let path := os_path_join (dirname (base self)) filename in
  let out := TrainsSaver_call DiskSaver_call checkpoint filename self w in
  new_effects w (world_of out)
  = DiskSaver_save (dirname (base self)) checkpoint filename
    :: (if is_ok (snd saved) && trains_installed w && _atomic (base self)
           && existsb (String.eqb path) (fst saved)
        then [create_output_model checkpoint path "pytorch" (task self) true
                (os_path_basename filename)]
        else [])
  /\ result_of out
     = match snd saved with
       | Raise e => Raise e
       | Ok _ => if trains_installed w then Ok tt
                 else Raise (RuntimeError import_error_msg)
       end.
Proof.
  unfold TrainsSaver_call, bind, get_self, emit, modify_world, on_files,
    get_world, world_of, result_of.
  simpl. destruct (DiskSaver_call (base self) checkpoint filename (files w))
    as [fs [[]|e]]; simpl.
  2:{ split; [apply (new_effects_add [_] w) | reflexivity]. }
  destruct (trains_installed w); simpl.
  2:{ split; [apply (new_effects_add [_] w) | reflexivity]. }
  destruct (_atomic (base self)); simpl.
  2:{ split; [apply (new_effects_add [_] w) | reflexivity]. }
  destruct (existsb _ fs); simpl.
  2:{ split; [apply (new_effects_add [_] w) | reflexivity]. }
  split; [|reflexivity].
  unfold new_effects. simpl. rewrite <- app_assoc.
  apply (new_effects_add [_; _] w).
Qed.

(** C7.  When the [trains] package cannot be imported, the constructor of
    [TrainsLogger] and the constructor of [TrainsSaver] raise and leave
    the world as it was, so no vendor session is created; the error is
    the [RuntimeError] of the import (a [TrainsSaver] given a logger of
    another class has raised [TypeError] before importing).
    [TrainsSaver.__call__] raises too, with [RuntimeError] once the local
    save has returned, and makes no upload. *)
Theorem missing_package_raises
    (DiskSaver_init :
       string -> Dict PyValue -> list string -> list string * Result DiskSaver)
    (DiskSaver_call :
       DiskSaver -> Dict PyValue -> string -> list string ->
       list string * Result unit)
    (w : World) :
  trains_installed w = false ->
  (forall kwargs,
     TrainsLogger_init kwargs tt w
     = (tt, w, Raise (RuntimeError import_error_msg))) /\
  (forall logger output_uri dirname kwargs,
     exists e,
       TrainsSaver_init DiskSaver_init logger output_uri dirname kwargs tt w
       = (tt, w, Raise e) /\
       (forall lg, logger = ATrainsLogger lg ->
                   e = RuntimeError import_error_msg)) /\
  (forall self checkpoint filename,
     let out := TrainsSaver_call DiskSaver_call checkpoint filename self w in
     is_ok (result_of out) = false /\
     (is_ok (snd (DiskSaver_call (base self) checkpoint filename (files w)))
      = true ->
      result_of out = Raise (RuntimeError import_error_msg)) /\
     existsb is_upload (new_effects w (world_of out)) = false /\
     existsb is_session (new_effects w (world_of out)) = false).
Proof.
  intros Hmissing. split; [|split].
  - intros kwargs. unfold TrainsLogger_init, bind, get_world.
    now rewrite Hmissing.
  - intros [lg | cls] output_uri dirname kwargs.
    + exists (RuntimeError import_error_msg). split; [|reflexivity].
      unfold TrainsSaver_init, bind, get_world. now rewrite Hmissing.
    + eexists. split; [reflexivity | discriminate].
  - intros self checkpoint filename out. subst out.
    destruct (TrainsSaver_call_trace DiskSaver_call self checkpoint filename w)
      as [Htrace Hres].
    rewrite Htrace, Hres, Hmissing.
    rewrite andb_false_r. simpl.
    destruct (snd (DiskSaver_call (base self) checkpoint filename (files w)));
      repeat split; auto; discriminate.
Qed.

(** Witness of C7: the sample world without the package. *)
Lemma missing_package_raises_witness :
  TrainsLogger_init [("project_name", PyStr "mnist")] tt
    Sample.world_without_trains
  = (tt, Sample.world_without_trains,
     Raise (RuntimeError import_error_msg)).
Proof.
  apply (proj1 (missing_package_raises Sample.disk_init Sample.disk_call
                  Sample.world_without_trains eq_refl)).
Defined.

(** ** The checkpoint saver *)

(** Counterexample of C4: a saver that is not atomic saves the checkpoint
    on disk and uploads nothing. *)
Lemma plain_saver_uploads_nothing_counterexample :
  let out := TrainsSaver_call Sample.disk_call Sample.checkpoint
               "best_model.pt" Sample.plain_saver Sample.world in
  result_of out = Ok tt /\
  new_effects Sample.world (world_of out)
  = [DiskSaver_save "/ckpt" Sample.checkpoint "best_model.pt"] /\
  ~ (exists e, In e (new_effects Sample.world (world_of out))
               /\ is_upload e = true).
Proof.
  vm_compute. repeat split.
  intros [e [[<- | []] H]]. discriminate H.
Qed.

(** On the sample disk the atomic saver uploads the file it saved. *)
Example atomic_saver_uploads :
  new_effects Sample.world
    (world_of (TrainsSaver_call Sample.disk_call Sample.checkpoint
                 "best_model.pt" Sample.atomic_saver Sample.world))
  = [DiskSaver_save "/ckpt" Sample.checkpoint "best_model.pt";
     create_output_model Sample.checkpoint "/ckpt/best_model.pt" "pytorch"
       SdkTask true "best_model.pt"].
Proof. reflexivity. Qed.

(** C4, amended.  [TrainsSaver.__call__] always starts with the local
    disk save.  When that save returns, the package is importable, the
    saver is atomic and the file exists at [os.path.join(dirname,
    filename)], one upload follows, given that path as [saved_path];
    otherwise nothing follows the save. *)
Theorem TrainsSaver_call_uploads_after_save
    (DiskSaver_call :
       DiskSaver -> Dict PyValue -> string -> list string ->
       list string * Result unit)
    (self : TrainsSaver) (checkpoint : Dict PyValue) (filename : string)
    (w : World) :
  let saved := DiskSaver_call (base self) checkpoint filename (files w) in
  let path := os_path_join (dirname (base self)) filename in
  let out := TrainsSaver_call DiskSaver_call checkpoint filename self w in
  exists rest,
    new_effects w (world_of out)
    = DiskSaver_save (dirname (base self)) checkpoint filename :: rest /\
    if is_ok (snd saved) && trains_installed w && _atomic (base self)
       && existsb (String.eqb path) (fst saved)
    then rest = [create_output_model checkpoint path "pytorch" (task self)
                   true (os_path_basename filename)]
    else rest = [].
Proof.
  intros saved path out.
  destruct (TrainsSaver_call_trace DiskSaver_call self checkpoint filename w)
    as [Htrace _].
  fold saved path out in Htrace. rewrite Htrace.
  eexists. split; [reflexivity|].
  destruct (is_ok (snd saved) && trains_installed w && _atomic (base self)
            && existsb (String.eqb path) (fst saved)); reflexivity.
Qed.

(** ** Bypass mode *)

Lemma set_bypass_modes_returns (bs : list bool) (w : World) :
  exists w', set_bypass_modes bs tt w = (tt, w', Ok tt).
Proof.
  unfold set_bypass_modes. revert w.
  induction bs as [|b bs IH]; intros w; simpl.
  - now exists w.
  - unfold bind, set_bypass_mode, modify_world. apply IH.
Qed.

Lemma for_each_app {Self A} (body : A -> M Self unit) (l1 l2 : list A)
    (s : Self) (w : World) :
  for_each (l1 ++ l2) body s w
  = bind (for_each l1 body) (fun _ => for_each l2 body) s w.
Proof.
  revert s w. induction l1 as [|x l1 IH]; intros s w; simpl.
  - reflexivity.
  - unfold bind in *. destruct (body x s w) as [[s1 w1] [[]|e]]; auto.
Qed.

(** C9.  After calls of [set_bypass_mode], [bypass_mode] returns the
    value of the last one; as long as the class attribute was never set
    it returns whether [CI] is in the environment with a non-empty value.
    When [bypass_mode] returns [True] (and the package is importable),
    the constructor warns, starts no vendor session and installs the
    stub as task; the stub's attributes are the stub itself, except
    [name] and [id], which are the empty string. *)
Theorem bypass_mode_spec :
  (forall w bs b,
     result_of (bind (set_bypass_modes (bs ++ [b])) (fun _ => bypass_mode)
                  tt w) = Ok b) /\
  (forall w,
     _bypass w = None ->
     bypass_mode tt w = (tt, w, Ok (truthy (dict_get "CI" (environ w))))) /\
  (forall kwargs w,
     trains_installed w = true ->
     result_of (bypass_mode tt w) = Ok true ->
     exists lg,
       TrainsLogger_init kwargs tt w
       = (tt, add_effects [warn "TrainsSaver: running in bypass mode"] w,
          Ok lg)
       /\ _task lg = _Stub) /\
  (_Stub_getattr "name" = StubStr "" /\
   _Stub_getattr "id" = StubStr "" /\
   forall attr, attr <> "name" -> attr <> "id" ->
                _Stub_getattr attr = StubSelf).
Proof.
  split; [|split; [|split]].
  - intros w bs b. unfold set_bypass_modes. unfold bind at 1.
    rewrite for_each_app. unfold bind at 1.
    destruct (set_bypass_modes_returns bs w) as [w' Hw'].
    unfold set_bypass_modes in Hw'. rewrite Hw'. reflexivity.
  - intros w Hunset. unfold bypass_mode, bind, get_world, ret.
    now rewrite Hunset.
  - intros kwargs w Hinst Hbypass.
    unfold bypass_mode, bind, get_world, ret, result_of in Hbypass.
    simpl in Hbypass.
    injection Hbypass as Hflag.
    unfold TrainsLogger_init, bypass_mode, bind, get_world, ret.
    rewrite Hinst. cbn [negb]. cbv beta iota.
    rewrite Hflag. eexists. split; reflexivity.
  - repeat split. intros attr Hname Hid. unfold _Stub_getattr. simpl.
    destruct (String.eqb_spec attr "name"); [contradiction|].
    destruct (String.eqb_spec attr "id"); [contradiction|]. reflexivity.
Qed.

(** Witness of C9: on a continuous-integration machine the constructor
    installs the stub. *)
Lemma bypass_mode_spec_witness :
  bypass_mode tt Sample.world_on_ci = (tt, Sample.world_on_ci, Ok true) /\
  exists lg,
    TrainsLogger_init [] tt Sample.world_on_ci
    = (tt, add_effects [warn "TrainsSaver: running in bypass mode"]
             Sample.world_on_ci, Ok lg)
    /\ _task lg = _Stub.
Proof.
  split.
  - apply (proj1 (proj2 bypass_mode_spec) Sample.world_on_ci eq_refl).
  - apply (proj1 (proj2 (proj2 bypass_mode_spec)) [] Sample.world_on_ci
             eq_refl eq_refl).
Defined.

(** ** Gradients and weights *)

(** C1, at the sample network.  The scalar that [GradsScalarHandler]
    reports for [fc1.weight] is the reduction of the parameter's value,
    which is not the reduction of its gradient. *)
Theorem GradsScalarHandler_reduces_data :
  new_effects Sample.world
    (world_of (GradsScalarHandler_call Sample.engine
                 (ATrainsLogger Sample.trains) "iteration_completed"
                 Sample.scalar_handler Sample.world))
  = [report_scalar SdkLogger "grads_first/fc1" "weight" (PyInt 7)
       (fn_apply Sample.first_entry [1; 2])]
  /\ fn_apply Sample.first_entry [1; 2] <> fn_apply Sample.first_entry [5; 6].
Proof.
  split; [reflexivity|]. simpl. intros H. inversion H.
Qed.

(** C2, at the sample network.  The histogram that [WeightsHistHandler]
    logs for [fc1.weight] holds the parameter's gradient, not its
    value. *)
Theorem WeightsHistHandler_logs_grad :
  new_effects Sample.world
    (world_of (WeightsHistHandler_call Sample.engine
                 (ATrainsLogger Sample.trains) "iteration_completed"
                 Sample.hist_handler Sample.world))
  = [add_histogram (grad_helper Sample.trains) "weights_fc1" "weight"
       (PyInt 7) [5; 6]]
  /\ ([5; 6] : Tensor) <> [1; 2].
Proof.
  split; [reflexivity|]. intros H. inversion H.
Qed.

(** ** What the handlers leave alone *)

Lemma only_adds_refl (P : Effect -> Prop) (w : World) : only_adds P w w.
Proof. exists []. split; [now rewrite add_effects_nil | constructor]. Qed.

Lemma only_adds_emit (P : Effect -> Prop) (e : Effect) (w : World) :
  P e -> only_adds P w (add_effects [e] w).
Proof. intros He. exists [e]. split; [reflexivity | now constructor]. Qed.

Lemma only_adds_trans (P : Effect -> Prop) (w1 w2 w3 : World) :
  only_adds P w1 w2 -> only_adds P w2 w3 -> only_adds P w1 w3.
Proof.
  intros [es1 [-> H1]] [es2 [-> H2]]. exists (es1 ++ es2). split.
  - apply add_effects_app.
  - apply Forall_app. now split.
Qed.

Lemma for_each_only_adds {Self A} (P : Effect -> Prop)
    (body : A -> M Self unit) (l : list A) :
  (forall x s w, only_adds P w (world_of (body x s w))) ->
  forall s w, only_adds P w (world_of (for_each l body s w)).
Proof.
  intros Hbody. induction l as [|x l IH]; intros s w; simpl.
  - apply only_adds_refl.
  - unfold bind. specialize (Hbody x s w).
    destruct (body x s w) as [[s1 w1] [[]|e]]; unfold world_of in Hbody;
      simpl in Hbody.
    + eapply only_adds_trans; [exact Hbody | apply IH].
    + exact Hbody.
Qed.

Ltac loop_only_adds :=
  apply for_each_only_adds; intros [? ?] ? ?;
  repeat match goal with
         | |- context [match ?x with _ => _ end] => destruct x
         end;
  first [ apply only_adds_refl
        | apply only_adds_emit; simpl; auto ].

(** Whatever the arguments, and whether it returns or raises, a handler
    call only adds logging calls on the given logger to the trace. *)
Lemma handler_calls_only_add
    (_setup_output_metrics :
       BaseOutputHandler -> Engine -> Result (Dict PyValue))
    (float_of_object : PyValue -> Result Q)
    (engine : Engine) (logger : LoggerArg) (event_name : string)
    (w : World) :
  (forall self,
     only_adds (sent_to_arg logger) w
       (world_of (OutputHandler_call _setup_output_metrics engine logger
                    event_name self w))) /\
  (forall self,
     only_adds (sent_to_arg logger) w
       (world_of (OptimizerParamsHandler_call float_of_object engine logger
                    event_name self w))) /\
  (forall self,
     only_adds (sent_to_arg logger) w
       (world_of (WeightsScalarHandler_call engine logger event_name self w)))
  /\
  (forall self,
     only_adds (sent_to_arg logger) w
       (world_of (WeightsHistHandler_call engine logger event_name self w)))
  /\
  (forall self,
     only_adds (sent_to_arg logger) w
       (world_of (GradsScalarHandler_call engine logger event_name self w)))
  /\
  (forall self,
     only_adds (sent_to_arg logger) w
       (world_of (GradsHistHandler_call engine logger event_name self w))).
Proof.
  repeat split; intros self; destruct logger as [lg | cls];
    try apply only_adds_refl; run_handler.
  - destruct (_setup_output_metrics self engine) as [metrics | e];
      [|apply only_adds_refl].
    destruct (global_step_transform self engine event_name) as [g | e];
      [|apply only_adds_refl].
    destruct (isinstance_int g); simpl negb; cbv iota;
      [|apply only_adds_refl].
    loop_only_adds.
  - destruct (get_event_attrib_value engine event_name) as [g | e];
      [|apply only_adds_refl].
    destruct (params_dict float_of_object (param_name self) 0
                (param_groups (optimizer self)) []) as [params | e];
      [|apply only_adds_refl].
    loop_only_adds.
  - destruct (get_event_attrib_value engine event_name) as [g | e];
      [|apply only_adds_refl].
    loop_only_adds.
  - destruct (get_event_attrib_value engine event_name) as [g | e];
      [|apply only_adds_refl].
    loop_only_adds.
  - destruct (get_event_attrib_value engine event_name) as [g | e];
      [|apply only_adds_refl].
    loop_only_adds.
  - destruct (get_event_attrib_value engine event_name) as [g | e];
      [|apply only_adds_refl].
    loop_only_adds.
Qed.

(** ** Order and number of the calls *)

Lemma output_entry_order (lg : TrainsLogger) (tag : string)
    (global_step : PyValue) (metrics : Dict PyValue) :
  let new := flat_map (output_entry lg tag global_step) metrics in
  map series_of (filter is_report new)
  = keys (filter (fun kv => isinstance_float_int (snd kv)) metrics)
  /\ length (filter is_warning new)
     = length (filter (fun kv => negb (isinstance_float_int (snd kv)))
                 metrics)
  /\ length new = length metrics.
Proof.
  induction metrics as [|[k v] metrics [IH1 [IH2 IH3]]]; simpl.
  - repeat split.
  - unfold output_entry at 1 3 5. simpl fst. simpl snd.
    destruct (isinstance_float_int v); simpl;
      rewrite ?IH1, ?IH2, ?IH3; repeat split.
Qed.

(** X2.  With a [TrainsLogger] and an integer global step, the
    [report_scalar] calls of [OutputHandler.__call__] come in the order
    of the metrics dictionary, one per numeric entry; there are as many
    warnings as entries that are not numeric, and nothing else is added:
    with no metrics the call adds nothing. *)
Theorem OutputHandler_call_order
    (_setup_output_metrics :
       BaseOutputHandler -> Engine -> Result (Dict PyValue))
    (self : BaseOutputHandler) (engine : Engine) (lg : TrainsLogger)
    (event_name : string) (w : World) (metrics : Dict PyValue)
    (global_step : PyValue) :
  _setup_output_metrics self engine = Ok metrics ->
  global_step_transform self engine event_name = Ok global_step ->
  isinstance_int global_step = true ->
  let new := new_effects w
               (world_of (OutputHandler_call _setup_output_metrics engine
                            (ATrainsLogger lg) event_name self w)) in
  map series_of (filter is_report new)
  = keys (filter (fun kv => isinstance_float_int (snd kv)) metrics)
  /\ length (filter is_warning new)
     = length (filter (fun kv => negb (isinstance_float_int (snd kv)))
                 metrics)
  /\ length new = length metrics.
Proof.
  intros Hm Hg Hint new. subst new.
  rewrite (OutputHandler_call_trace _setup_output_metrics self engine lg
             event_name w metrics global_step Hm Hg Hint).
  unfold world_of. simpl. rewrite new_effects_add.
  apply output_entry_order.
Qed.

(** Witness of X2: the two metrics of the sample engine. *)
Lemma OutputHandler_call_order_witness :
  let new := new_effects Sample.world
               (world_of (OutputHandler_call Sample.all_metrics
                            Sample.engine (ATrainsLogger Sample.trains)
                            "epoch_completed" Sample.output_handler
                            Sample.world)) in
  map series_of (filter is_report new) = ["nll"]
  /\ length (filter is_warning new) = 1%nat
  /\ length new = 2%nat.
Proof.
  apply (OutputHandler_call_order Sample.all_metrics Sample.output_handler
           Sample.engine Sample.trains "epoch_completed" Sample.world
           (state_metrics Sample.engine) (PyInt 7) eq_refl eq_refl eq_refl).
Defined.

Section OptimizerParamsOrder.

Variable float_of_object : PyValue -> Result Q.

(** The comprehension stops at the first group whose value is missing or
    is refused by [float]. *)
Lemma params_dict_fails (name : string) (e : PyExc)
    (pg : Dict PyValue) (post : list (Dict PyValue)) :
  param_value float_of_object name pg = Raise e ->
  forall pre i acc,
    (forall g, In g pre -> is_ok (param_value float_of_object name g) = true) ->
    params_dict float_of_object name i (pre ++ pg :: post) acc = Raise e.
Proof.
  intros Hpg. induction pre as [|g pre IH]; intros i acc Hpre; simpl.
  - now rewrite Hpg.
  - pose proof (Hpre g (or_introl eq_refl)) as Hg.
    destruct (param_value float_of_object name g) as [v|e'];
      [|discriminate Hg].
    apply IH. intros g' Hin. apply Hpre. now right.
Qed.

(** X3.  [OptimizerParamsHandler.__call__] reports all groups or none:
    at the first group that lacks the parameter, the call raises
    [KeyError]; at the first group whose value [float] refuses, the
    exception of [float] (for an [int] beyond the doubles,
    [OverflowError]); and nothing is reported, not even for the groups
    before it. *)
Theorem OptimizerParamsHandler_all_or_nothing
    (self : BaseOptimizerParamsHandler) (engine : Engine) (lg : TrainsLogger)
    (event_name : string) (w : World) (global_step : Z)
    (pre post : list (Dict PyValue)) (pg : Dict PyValue) (e : PyExc) :
  get_event_attrib_value engine event_name = Ok global_step ->
  param_groups (optimizer self) = pre ++ pg :: post ->
  (forall g, In g pre ->
     exists x v, dict_get (param_name self) g = Some x
                 /\ py_float float_of_object x = Ok v) ->
  (dict_get (param_name self) pg = None /\ e = KeyError (param_name self))
  \/ (exists x, dict_get (param_name self) pg = Some x
                /\ py_float float_of_object x = Raise e) ->
  OptimizerParamsHandler_call float_of_object engine (ATrainsLogger lg)
    event_name self w
  = (self, w, Raise e).
Proof.
  intros Hstep Hgroups Hpre Hpg.
  assert (param_value float_of_object (param_name self) pg = Raise e)
    as Hraise.
  { destruct Hpg as [[Hnone ->] | [x [Hx Hx']]].
    - unfold param_value. now rewrite Hnone.
    - now rewrite (param_value_lookup float_of_object (param_name self) pg x Hx). }
  unfold OptimizerParamsHandler_call, bind, get_self, lift.
  rewrite Hstep, Hgroups.
  now rewrite (params_dict_fails (param_name self) e pg post Hraise pre 0 []
                 (param_value_defined float_of_object (param_name self) pre Hpre)).
Qed.

Lemma flat_map_single {A B} (g : A -> B) (l : list A) :
  flat_map (fun x => [g x]) l = map g l.
Proof. induction l as [|x l IH]; simpl; [reflexivity | now rewrite IH]. Qed.

(** On success the entries of the comprehension are in the order of the
    groups. *)
Lemma params_dict_nth (name : string) (groups : list (Dict PyValue)) :
  (forall pg, In pg groups -> is_ok (param_value float_of_object name pg) = true) ->
  forall i acc,
    (forall k, In k (keys acc) -> exists j, (j < i)%nat /\ k = str_of_nat j) ->
    exists d,
      params_dict float_of_object name i groups acc = Ok (acc ++ d) /\
      length d = length groups /\
      forall n pg v,
        nth_error groups n = Some pg ->
        param_value float_of_object name pg = Ok v ->
        nth_error d n = Some (str_of_nat (i + n)%nat, v).
Proof.
  induction groups as [|g rest IH]; intros Hok i acc Hacc.
  - exists []. simpl. rewrite app_nil_r. repeat split; auto.
    intros [|n] pg v Hn; discriminate.
  - simpl. pose proof (Hok g (or_introl eq_refl)) as Hg.
    destruct (param_value float_of_object name g) as [v|e] eqn:Hv;
      [clear Hg | discriminate Hg].
    rewrite dict_set_fresh.
    2:{ intros Hin. destruct (Hacc _ Hin) as [j [Hlt Heq]].
        apply str_of_nat_inj in Heq. lia. }
    destruct (IH (fun pg H => Hok pg (or_intror H)) (S i)
                (acc ++ [(str_of_nat i, v)])) as [d [Hd [Hlen Hnth]]].
    { intros k Hk. rewrite keys_app in Hk. apply in_app_or in Hk.
      destruct Hk as [Hk | [<- | []]].
      - destruct (Hacc k Hk) as [j [Hlt Heq]]. exists j. split; [lia | auto].
      - exists i. split; [lia | reflexivity]. }
    exists ((str_of_nat i, v) :: d). split; [|split].
    + rewrite Hd, <- app_assoc. reflexivity.
    + simpl. now rewrite Hlen.
    + intros [|n] pg v' Hn Hpv; simpl in Hn; simpl.
      * inversion Hn; subst pg. rewrite Hv in Hpv. inversion Hpv; subst v'.
        now rewrite Nat.add_0_r.
      * replace (i + S n)%nat with (S i + n)%nat by lia. eapply Hnth; eauto.
Qed.

(** X4.  When every group holds the parameter with a value that
    [float] converts, [OptimizerParamsHandler.__call__] adds as many
    calls as there are parameter groups, and the call at position [i] is
    the one of the group at index [i], with value
    [float(param_group[param_name])]: the plots follow the order of
    [optimizer.param_groups], and an optimizer without groups reports
    nothing. *)
Theorem OptimizerParamsHandler_call_order
    (self : BaseOptimizerParamsHandler) (engine : Engine) (lg : TrainsLogger)
    (event_name : string) (w : World) (global_step : Z) :
  get_event_attrib_value engine event_name = Ok global_step ->
  (forall pg, In pg (param_groups (optimizer self)) ->
     exists x v, dict_get (param_name self) pg = Some x
                 /\ py_float float_of_object x = Ok v) ->
  let new := new_effects w
               (world_of (OptimizerParamsHandler_call float_of_object engine
                            (ATrainsLogger lg) event_name self w)) in
  length new = length (param_groups (optimizer self)) /\
  forall i param_group x v,
    nth_error (param_groups (optimizer self)) i = Some param_group ->
    dict_get (param_name self) param_group = Some x ->
    py_float float_of_object x = Ok v ->
    nth_error new i
    = Some (report_scalar (trains_logger lg)
              (tag_prefix_of (op_tag self) ++ param_name self)
              (str_of_nat i) (PyInt global_step) (PyFloat v)).
Proof.
  intros Hstep Hdef new. subst new.
  destruct (params_dict_nth (param_name self)
              (param_groups (optimizer self))
              (param_value_defined float_of_object (param_name self) _ Hdef) 0 [])
    as [d [Hd [Hlen Hnth]]].
  { intros k []. }
  simpl in Hd.
  set (g := fun kv : string * Q =>
              report_scalar (trains_logger lg)
                (tag_prefix_of (op_tag self) ++ param_name self) (fst kv)
                (PyInt global_step) (PyFloat (snd kv))).
  assert (OptimizerParamsHandler_call float_of_object engine
            (ATrainsLogger lg) event_name self w
          = (self, add_effects (flat_map (fun kv => [g kv]) d) w, Ok tt))
    as Hcall.
  { unfold OptimizerParamsHandler_call, bind, get_self, lift.
    rewrite Hstep, Hd. apply for_each_emits. intros [k v] s w' _.
    reflexivity. }
  rewrite Hcall. unfold world_of. simpl.
  rewrite new_effects_add, flat_map_single. split.
  - now rewrite length_map.
  - intros i pg x v Hi Hx Hv.
    assert (param_value float_of_object (param_name self) pg = Ok v) as Hpv.
    { now rewrite (param_value_lookup float_of_object (param_name self) pg x Hx). }
    rewrite (map_nth_error g i d (Hnth i pg v Hi Hpv)). reflexivity.
Qed.

End OptimizerParamsOrder.

(** Witness of X3: the second group of the sample holds an [int] beyond
    the doubles; the learning rate of the first group is not reported. *)
Lemma OptimizerParamsHandler_all_or_nothing_witness :
  OptimizerParamsHandler_call Sample.no_conversion Sample.engine
    (ATrainsLogger Sample.trains) "iteration_completed"
    Sample.overflowing_handler Sample.world
  = (Sample.overflowing_handler, Sample.world,
     Raise (OverflowError "int too large to convert to float")).
Proof.
  apply (OptimizerParamsHandler_all_or_nothing Sample.no_conversion
           Sample.overflowing_handler Sample.engine Sample.trains
           "iteration_completed" Sample.world 7%Z
           [[("lr", PyFloat (1 # 10))]] [] [("lr", PyInt (10 ^ 400))]
           (OverflowError "int too large to convert to float")
           eq_refl eq_refl).
  - intros g [<- | []]. exists (PyFloat (1 # 10)), (1 # 10).
    split; reflexivity.
  - right. exists (PyInt (10 ^ 400)). split; [reflexivity|].
    vm_compute. reflexivity.
Defined.

(** Witness of X4: the two groups of the sample optimizer. *)
Lemma OptimizerParamsHandler_call_order_witness :
  let new := new_effects Sample.world
               (world_of (OptimizerParamsHandler_call Sample.no_conversion
                            Sample.engine (ATrainsLogger Sample.trains)
                            "iteration_completed" Sample.lr_handler
                            Sample.world)) in
  length new = 2%nat /\
  nth_error new 0
  = Some (report_scalar SdkLogger "generator/lr" "0" (PyInt 7)
            (PyFloat (1 # 10))) /\
  nth_error new 1
  = Some (report_scalar SdkLogger "generator/lr" "1" (PyInt 7)
            (PyFloat (1 # 100))).
Proof.
  assert (forall pg, In pg (param_groups Sample.sgd) ->
            exists x v, dict_get "lr" pg = Some x
                        /\ py_float Sample.no_conversion x = Ok v) as Hlr.
  { simpl. intros pg [<- | [<- | []]]; eexists; eexists; split; reflexivity. }
  pose proof (OptimizerParamsHandler_call_order Sample.no_conversion
                Sample.lr_handler Sample.engine Sample.trains
                "iteration_completed" Sample.world 7%Z eq_refl Hlr)
    as [Hlen Hnth].
  split; [exact Hlen | split].
  - apply (Hnth 0%nat _ (PyFloat (1 # 10)) (1 # 10) eq_refl eq_refl eq_refl).
  - apply (Hnth 1%nat _ (PyFloat (1 # 100)) (1 # 100) eq_refl eq_refl
             eq_refl).
Defined.

(** ** What the weight and gradient handlers send *)

Lemma scalar_entry_length (lg : TrainsLogger) (kind : string)
    (self : BaseWeightsScalarHandler) (global_step : Z)
    (params : list (string * Param)) :
  length (flat_map (scalar_entry lg kind self global_step) params)
  = length (filter (fun np => has_grad (snd np)) params).
Proof.
  induction params as [|[name p] params IH]; simpl; auto.
  rewrite length_app, IH. unfold scalar_entry, has_grad. simpl.
  destruct (grad p) as [g|]; [|reflexivity].
  now destruct (partition_dot name) as [[h sep] t].
Qed.

Lemma hist_entry_length (lg : TrainsLogger) (kind : string)
    (self : BaseWeightsHistHandler) (global_step : Z)
    (params : list (string * Param)) :
  length (flat_map (hist_entry lg kind self global_step) params)
  = length (filter (fun np => has_grad (snd np)) params).
Proof.
  induction params as [|[name p] params IH]; simpl; auto.
  rewrite length_app, IH. unfold hist_entry, has_grad. simpl.
  destruct (grad p) as [g|]; [|reflexivity].
  now destruct (partition_dot name) as [[h sep] t].
Qed.

(** X5.  With a [TrainsLogger] and a global step, each of the four weight
    and gradient handlers makes exactly as many calls as the model has
    parameters with a gradient, and nothing else: a model without
    parameters, or before any backward pass, gives no call. *)
Theorem weight_handlers_call_once_per_gradient (engine : Engine)
    (lg : TrainsLogger) (event_name : string) (w : World) (global_step : Z) :
  get_event_attrib_value engine event_name = Ok global_step ->
  (forall self,
     length (new_effects w
               (world_of (WeightsScalarHandler_call engine (ATrainsLogger lg)
                            event_name self w)))
     = length (filter (fun np => has_grad (snd np))
                 (named_parameters (ws_model self)))) /\
  (forall self,
     length (new_effects w
               (world_of (WeightsHistHandler_call engine (ATrainsLogger lg)
                            event_name self w)))
     = length (filter (fun np => has_grad (snd np))
                 (named_parameters (wh_model self)))) /\
  (forall self,
     length (new_effects w
               (world_of (GradsScalarHandler_call engine (ATrainsLogger lg)
                            event_name self w)))
     = length (filter (fun np => has_grad (snd np))
                 (named_parameters (ws_model self)))) /\
  (forall self,
     length (new_effects w
               (world_of (GradsHistHandler_call engine (ATrainsLogger lg)
                            event_name self w)))
     = length (filter (fun np => has_grad (snd np))
                 (named_parameters (wh_model self)))).
Proof.
  intros Hstep. repeat split; intros self.
  - rewrite (WeightsScalarHandler_call_trace _ _ _ _ _ _ Hstep).
    unfold world_of; simpl. rewrite new_effects_add.
    apply scalar_entry_length.
  - rewrite (WeightsHistHandler_call_trace _ _ _ _ _ _ Hstep).
    unfold world_of; simpl. rewrite new_effects_add.
    apply hist_entry_length.
  - rewrite (GradsScalarHandler_call_trace _ _ _ _ _ _ Hstep).
    unfold world_of; simpl. rewrite new_effects_add.
    apply scalar_entry_length.
  - rewrite (GradsHistHandler_call_trace _ _ _ _ _ _ Hstep).
    unfold world_of; simpl. rewrite new_effects_add.
    apply hist_entry_length.
Qed.

(** Witness of X5: one of the two sample parameters has a gradient. *)
Lemma weight_handlers_call_once_per_gradient_witness :
  length (new_effects Sample.world
            (world_of (GradsHistHandler_call Sample.engine
                         (ATrainsLogger Sample.trains) "iteration_completed"
                         Sample.hist_handler Sample.world)))
  = 1%nat.
Proof.
  apply (proj2 (proj2 (proj2
           (weight_handlers_call_once_per_gradient Sample.engine
              Sample.trains "iteration_completed" Sample.world 7%Z
              eq_refl)))
           Sample.hist_handler).
Defined.

(** X6.  With a [TrainsLogger] and a global step, the calls of
    [WeightsScalarHandler.__call__] are exactly the scalars of the
    parameters with a gradient: each carries the reduction of the
    parameter's value [p.data], at the global step, the part of the name
    after the first dot as series and, as title, the tag prefix,
    ["weights_"], the reduction's name, a slash and the part of the name
    before the first dot. *)
Theorem WeightsScalarHandler_reports_weights
    (self : BaseWeightsScalarHandler) (engine : Engine) (lg : TrainsLogger)
    (event_name : string) (w : World) (global_step : Z) (e : Effect) :
  get_event_attrib_value engine event_name = Ok global_step ->
  (In e (new_effects w
           (world_of (WeightsScalarHandler_call engine (ATrainsLogger lg)
                        event_name self w)))
   <->
   exists name p g,
     In (name, p) (named_parameters (ws_model self)) /\
     grad p = Some g /\
     e = report_scalar (trains_logger lg)
           (tag_prefix_of (ws_tag self) ++ "weights_"
              ++ fn_name (reduction self) ++ "/"
              ++ fst (fst (partition_dot name)))
           (snd (partition_dot name)) (PyInt global_step)
           (fn_apply (reduction self) (data p))).
Proof.
  intros Hstep.
  rewrite (WeightsScalarHandler_call_trace _ _ _ _ _ _ Hstep).
  unfold world_of; simpl. rewrite new_effects_add, in_flat_map. split.
  - intros [[name p] [Hin He]]. unfold scalar_entry in He. simpl in He.
    destruct (grad p) as [g|] eqn:Hg; [|contradiction].
    exists name, p, g. repeat split; auto.
    destruct (partition_dot name) as [[h sep] t]. simpl.
    destruct He as [<- | []]. reflexivity.
  - intros [name [p [g [Hin [Hg ->]]]]]. exists (name, p). split; auto.
    unfold scalar_entry. simpl. rewrite Hg.
    destruct (partition_dot name) as [[h sep] t]. now left.
Qed.

(** Witness of X6: the weight of the sample network. *)
Lemma WeightsScalarHandler_reports_weights_witness :
  In (report_scalar SdkLogger "weights_first/fc1" "weight" (PyInt 7)
        (PyFloat 1))
     (new_effects Sample.world
        (world_of (WeightsScalarHandler_call Sample.engine
                     (ATrainsLogger Sample.trains) "iteration_completed"
                     Sample.scalar_handler Sample.world))).
Proof.
  apply (proj2 (WeightsScalarHandler_reports_weights Sample.scalar_handler
                  Sample.engine Sample.trains "iteration_completed"
                  Sample.world 7%Z _ eq_refl)).
  exists "fc1.weight", {| data := [1; 2]; grad := Some [5; 6] |}, [5; 6].
  repeat split. now left.
Defined.

(** X7.  With a [TrainsLogger] and a global step, the calls of
    [GradsHistHandler.__call__] are exactly the histograms of the
    gradients: for each parameter with a gradient, one [add_histogram] on
    the logger's [grad_helper] whose data is the gradient [p.grad], at the
    global step, titled with the tag prefix, ["grads_"] and the part of
    the name before the first dot. *)
Theorem GradsHistHandler_logs_gradients
    (self : BaseWeightsHistHandler) (engine : Engine) (lg : TrainsLogger)
    (event_name : string) (w : World) (global_step : Z) (e : Effect) :
  get_event_attrib_value engine event_name = Ok global_step ->
  (In e (new_effects w
           (world_of (GradsHistHandler_call engine (ATrainsLogger lg)
                        event_name self w)))
   <->
   exists name p g,
     In (name, p) (named_parameters (wh_model self)) /\
     grad p = Some g /\
     e = add_histogram (grad_helper lg)
           (tag_prefix_of (wh_tag self) ++ "grads_"
              ++ fst (fst (partition_dot name)))
           (snd (partition_dot name)) (PyInt global_step) g).
Proof.
  intros Hstep.
  rewrite (GradsHistHandler_call_trace _ _ _ _ _ _ Hstep).
  unfold world_of; simpl. rewrite new_effects_add, in_flat_map. split.
  - intros [[name p] [Hin He]]. unfold hist_entry in He. simpl in He.
    destruct (grad p) as [g|] eqn:Hg; [|contradiction].
    exists name, p, g. repeat split; auto.
    destruct (partition_dot name) as [[h sep] t]. simpl.
    destruct He as [<- | []]. reflexivity.
  - intros [name [p [g [Hin [Hg ->]]]]]. exists (name, p). split; auto.
    unfold hist_entry. simpl. rewrite Hg.
    destruct (partition_dot name) as [[h sep] t]. now left.
Qed.

(** Witness of X7: the gradient of the sample weight. *)
Lemma GradsHistHandler_logs_gradients_witness :
  In (add_histogram (grad_helper Sample.trains) "grads_fc1" "weight"
        (PyInt 7) [5; 6])
     (new_effects Sample.world
        (world_of (GradsHistHandler_call Sample.engine
                     (ATrainsLogger Sample.trains) "iteration_completed"
                     Sample.hist_handler Sample.world))).
Proof.
  apply (proj2 (GradsHistHandler_logs_gradients Sample.hist_handler
                  Sample.engine Sample.trains "iteration_completed"
                  Sample.world 7%Z _ eq_refl)).
  exists "fc1.weight", {| data := [1; 2]; grad := Some [5; 6] |}, [5; 6].
  repeat split. now left.
Defined.

(** ** Splitting a parameter name *)

Lemma contains_cons (c x : ascii) (s : string) :
  contains c (String x s) = Ascii.eqb c x || contains c s.
Proof. reflexivity. Qed.

(** X8.  [name.partition(".")], which gives the four weight and gradient
    handlers their title and series, splits at the first dot: the three
    parts put together are the name, the head has no dot, and either the
    separator is the dot, or the name has no dot and is the head whole,
    with an empty series. *)
Theorem partition_dot_splits (name : string) :
  let '(head, sep, tail) := partition_dot name in
  (head ++ sep ++ tail)%string = name /\
  contains "."%char head = false /\
  ((sep = "." /\ contains "."%char name = true) \/
   (sep = "" /\ tail = "" /\ head = name
    /\ contains "."%char name = false)).
Proof.
  induction name as [|c name IH]; simpl.
  - repeat split. right. repeat split.
  - rewrite contains_cons. rewrite (Ascii.eqb_sym "."%char c).
    destruct (Ascii.eqb c "."%char) eqn:Hc.
    + apply Ascii.eqb_eq in Hc. subst c. simpl. repeat split.
      left. split; reflexivity.
    + destruct (partition_dot name) as [[h sep] t].
      destruct IH as [Hcat [Hh Hcases]].
      destruct Hcases as [[-> Hdot] | [-> [-> [-> Hdot]]]].
      * simpl. rewrite contains_cons, (Ascii.eqb_sym "."%char c), Hc, Hh.
        simpl in Hcat. rewrite Hcat. repeat split. left. split; auto.
      * simpl. rewrite contains_cons, (Ascii.eqb_sym "."%char c), Hc, Hh.
        simpl in Hcat. repeat split.
        -- now rewrite Hcat.
        -- right. repeat split; auto.
Qed.

(** ** The world after a handler call *)

Lemma skipn_length_app {A} (l es : list A) : skipn (length l) (l ++ es) = es.
Proof. induction l as [|x l IH]; simpl; auto. Qed.

Lemma new_effects_eq (w w' : World) (es : list Effect) :
  effects w' = effects w ++ es -> new_effects w w' = es.
Proof.
  intros H. unfold new_effects. rewrite H. apply skipn_length_app.
Qed.

Lemma only_adds_logs_only (logger : LoggerArg) (w w' : World) :
  only_adds (sent_to_arg logger) w w' -> logs_only logger w w'.
Proof.
  intros [es [-> Hes]]. unfold logs_only. rewrite new_effects_add.
  repeat split; auto.
Qed.

(** X1.  Whatever the arguments, and whether it returns or raises, a call
    of any of the six handlers changes the world in one way only: it adds
    to the end of the trace [report_scalar] calls on the logger's
    [trains_logger], [add_histogram] calls on its [grad_helper], and
    warnings.  It starts no session, uploads nothing, and leaves the
    disk, the environment, the current task and the bypass flag as they
    were; with a logger of another class it adds nothing. *)
Theorem handlers_only_log
    (_setup_output_metrics :
       BaseOutputHandler -> Engine -> Result (Dict PyValue))
    (float_of_object : PyValue -> Result Q)
    (engine : Engine) (logger : LoggerArg) (event_name : string)
    (w : World) :
  (forall self,
     logs_only logger w
       (world_of (OutputHandler_call _setup_output_metrics engine logger
                    event_name self w))) /\
  (forall self,
     logs_only logger w
       (world_of (OptimizerParamsHandler_call float_of_object engine logger
                    event_name self w))) /\
  (forall self,
     logs_only logger w
       (world_of (WeightsScalarHandler_call engine logger event_name self w)))
  /\
  (forall self,
     logs_only logger w
       (world_of (WeightsHistHandler_call engine logger event_name self w)))
  /\
  (forall self,
     logs_only logger w
       (world_of (GradsScalarHandler_call engine logger event_name self w)))
  /\
  (forall self,
     logs_only logger w
       (world_of (GradsHistHandler_call engine logger event_name self w))).
Proof.
  destruct (handler_calls_only_add _setup_output_metrics float_of_object engine
              logger event_name w) as [H1 [H2 [H3 [H4 [H5 H6]]]]].
  repeat match goal with |- _ /\ _ => split end;
    intros self; apply only_adds_logs_only; auto.
Qed.

(** ** The constructor of the logger *)

Lemma bypass_mode_flag (w : World) :
  bypass_mode tt w = (tt, w, Ok (bypass_flag w)).
Proof. reflexivity. Qed.

(** The two ways through [TrainsLogger.__init__] once the package is
    imported. *)
Lemma TrainsLogger_init_cases (kwargs : Dict PyValue) (w : World) :
  trains_installed w = true ->
  TrainsLogger_init kwargs tt w
  = if bypass_flag w then
      (tt, add_effects [warn "TrainsSaver: running in bypass mode"] w,
       Ok (logger_around _Stub kwargs))
    else
      (tt,
       with_current_task SdkTask
         (add_effects
            [Task_init (kwargs_get "project_name" PyNone kwargs)
               (kwargs_get "task_name" PyNone kwargs)
               (kwargs_get "task_type" (PyObject "TaskTypes.training") kwargs)
               (filter (fun kv => negb (existsb (String.eqb (fst kv))
                                          own_kwargs)) kwargs)] w),
       Ok (logger_around SdkTask kwargs)).
Proof.
  intros Hinst. unfold TrainsLogger_init, bind, get_world.
  rewrite Hinst. cbn [negb]. cbv beta iota.
  rewrite bypass_mode_flag. cbv beta iota.
  destruct (bypass_flag w); reflexivity.
Qed.

Lemma TrainsLogger_init_returns (kwargs : Dict PyValue) (w w' : World)
    (lg : TrainsLogger) :
  TrainsLogger_init kwargs tt w = (tt, w', Ok lg) ->
  trains_installed w = true.
Proof.
  intros H. destruct (trains_installed w) eqn:Hinst; auto.
  unfold TrainsLogger_init, bind, get_world in H. rewrite Hinst in H.
  discriminate H.
Qed.

Lemma own_kwargs_spec (k : string) :
  existsb (String.eqb k) own_kwargs = true <-> In k own_kwargs.
Proof.
  rewrite existsb_exists. split.
  - intros [x [Hin Heq]]. apply String.eqb_eq in Heq. now subst.
  - intros Hin. exists k. split; auto. apply String.eqb_refl.
Qed.

(** X9.  When the package is importable and [bypass_mode()] is [False],
    the constructor makes exactly one [Task.init] call and no warning;
    the call gets [project_name], [task_name] and [task_type] from the
    keyword arguments ([None], [None] and [TaskTypes.training] when
    absent), and as further arguments every keyword argument other than
    the six the constructor reads itself, and only those.  The task
    becomes the logger's task and the current task. *)
Theorem TrainsLogger_init_starts_session (kwargs : Dict PyValue) (w : World) :
  trains_installed w = true ->
  result_of (bypass_mode tt w) = Ok false ->
  exists lg experiment_kwargs,
    TrainsLogger_init kwargs tt w
    = (tt,
       with_current_task SdkTask
         (add_effects
            [Task_init (kwargs_get "project_name" PyNone kwargs)
               (kwargs_get "task_name" PyNone kwargs)
               (kwargs_get "task_type" (PyObject "TaskTypes.training") kwargs)
               experiment_kwargs] w),
       Ok lg) /\
    _task lg = SdkTask /\
    trains_logger lg = SdkLogger /\
    forall k v,
      In (k, v) experiment_kwargs <-> In (k, v) kwargs /\ ~ In k own_kwargs.
Proof.
  intros Hinst Hflag. rewrite bypass_mode_flag in Hflag.
  injection Hflag as Hflag.
  rewrite (TrainsLogger_init_cases kwargs w Hinst), Hflag.
  eexists. eexists. split; [reflexivity|].
  split; [reflexivity|]. split; [reflexivity|].
  intros k v. split.
  - intros H. apply filter_In in H. destruct H as [Hin H]. split; auto.
    intros Hown. apply own_kwargs_spec in Hown. simpl fst in H.
    rewrite Hown in H. discriminate H.
  - intros [Hin Hnot]. apply filter_In. split; auto. simpl fst.
    destruct (existsb (String.eqb k) own_kwargs) eqn:Hk; auto.
    exfalso. apply Hnot. now apply own_kwargs_spec.
Qed.

(** Witness of X9: a project name and one argument for the vendor. *)
Lemma TrainsLogger_init_starts_session_witness :
  exists lg experiment_kwargs,
    TrainsLogger_init
      [("project_name", PyStr "mnist"); ("reuse_last_task_id", PyBool false)]
      tt Sample.world
    = (tt,
       with_current_task SdkTask
         (add_effects
            [Task_init (PyStr "mnist") PyNone (PyObject "TaskTypes.training")
               experiment_kwargs] Sample.world),
       Ok lg) /\
    _task lg = SdkTask /\
    trains_logger lg = SdkLogger /\
    forall k v,
      In (k, v) experiment_kwargs
      <-> In (k, v) [("project_name", PyStr "mnist");
                     ("reuse_last_task_id", PyBool false)]
          /\ ~ In k own_kwargs.
Proof.
  apply (TrainsLogger_init_starts_session
           [("project_name", PyStr "mnist");
            ("reuse_last_task_id", PyBool false)]
           Sample.world eq_refl eq_refl).
Defined.

(** X10.  A call of [set_bypass_mode] decides the mode of the next
    constructor whatever the environment says: after
    [set_bypass_mode(False)] the constructor starts a session even when
    [CI] is set, after [set_bypass_mode(True)] it warns and installs the
    stub even when it is not. *)
Theorem set_bypass_mode_overrides_environment (kwargs : Dict PyValue)
    (w : World) (bypass : bool) :
  trains_installed w = true ->
  let out := bind (set_bypass_mode bypass)
               (fun _ => TrainsLogger_init kwargs) tt w in
  result_of out
  = Ok (logger_around (if bypass then _Stub else SdkTask) kwargs) /\
  existsb is_session (new_effects w (world_of out)) = negb bypass /\
  existsb is_warning (new_effects w (world_of out)) = bypass.
Proof.
  intros Hinst out. subst out.
  change (bind (set_bypass_mode bypass) (fun _ => TrainsLogger_init kwargs)
            tt w)
    with (TrainsLogger_init kwargs tt (with_bypass (Some bypass) w)).
  rewrite (TrainsLogger_init_cases kwargs (with_bypass (Some bypass) w))
    by exact Hinst.
  change (bypass_flag (with_bypass (Some bypass) w)) with bypass.
  destruct bypass; unfold result_of, world_of; cbn [fst snd];
    rewrite (new_effects_eq w _ [_]) by reflexivity; repeat split.
Qed.

(** Witness of X10: on a continuous-integration machine. *)
Lemma set_bypass_mode_overrides_environment_witness :
  let out := bind (set_bypass_mode false)
               (fun _ => TrainsLogger_init []) tt Sample.world_on_ci in
  result_of out = Ok (logger_around SdkTask []) /\
  existsb is_session (new_effects Sample.world_on_ci (world_of out)) = true /\
  existsb is_warning (new_effects Sample.world_on_ci (world_of out)) = false.
Proof.
  apply (set_bypass_mode_overrides_environment [] Sample.world_on_ci false
           eq_refl).
Defined.

(** X11.  Every logger that the constructor returns is wired the same
    way: its [trains_logger] is the logger of its task, its histogram
    helper writes to that same [trains_logger], and the helper has the
    documented defaults (100, 10, 50) for the settings that the keyword
    arguments do not give.  The constructor leaves the disk and the
    bypass flag as they were. *)
Theorem TrainsLogger_init_wires_helper (kwargs : Dict PyValue)
    (w w' : World) (lg : TrainsLogger) :
  TrainsLogger_init kwargs tt w = (tt, w', Ok lg) ->
  trains_logger lg = get_logger (_task lg) /\
  helper_logger (grad_helper lg) = trains_logger lg /\
  (dict_get "report_freq" kwargs = None ->
   report_freq (grad_helper lg) = PyInt 100) /\
  (dict_get "histogram_update_freq_multiplier" kwargs = None ->
   histogram_update_freq_multiplier (grad_helper lg) = PyInt 10) /\
  (dict_get "histogram_granularity" kwargs = None ->
   histogram_granularity (grad_helper lg) = PyInt 50) /\
  files w' = files w /\
  _bypass w' = _bypass w.
Proof.
  intros Hinit. pose proof (TrainsLogger_init_returns _ _ _ _ Hinit) as Hinst.
  rewrite (TrainsLogger_init_cases kwargs w Hinst) in Hinit.
  destruct (bypass_flag w); inversion Hinit; subst; simpl;
    unfold kwargs_get; repeat split; intros ->; reflexivity.
Qed.

(** Witness of X11: the sample world, without keyword arguments. *)
Lemma TrainsLogger_init_wires_helper_witness :
  report_freq (grad_helper (logger_around SdkTask [])) = PyInt 100.
Proof.
  apply (proj1 (proj2 (proj2
           (TrainsLogger_init_wires_helper [] Sample.world
              (with_current_task SdkTask
                 (add_effects
                    [Task_init PyNone PyNone (PyObject "TaskTypes.training")
                       []] Sample.world))
              (logger_around SdkTask []) eq_refl)))
           eq_refl).
Defined.

(** ** A logger in bypass mode *)

Lemma only_adds_new (P : Effect -> Prop) (w w' : World) :
  only_adds P w w' -> Forall P (new_effects w w').
Proof. intros [es [-> Hes]]. now rewrite new_effects_add. Qed.

Lemma sent_to_stub (kwargs : Dict PyValue) (e : Effect) :
  sent_to (logger_around _Stub kwargs) e ->
  forall r, final_receiver e = Some r -> r = _Stub.
Proof.
  destruct e; simpl; intros H r Hr; try discriminate Hr; try contradiction;
    inversion Hr; subst; reflexivity.
Qed.

(** X12.  A logger built while [bypass_mode()] is [True] sends nothing
    to the vendor: whichever of the six handlers is called with it, and
    whatever the engine and the world, every [report_scalar] it makes is
    received by the stub, and every [add_histogram] by a helper whose
    logger is the stub. *)
Theorem bypass_logger_reaches_stub_only (kwargs : Dict PyValue)
    (w w1 : World) (lg : TrainsLogger)
    (_setup_output_metrics :
       BaseOutputHandler -> Engine -> Result (Dict PyValue))
    (float_of_object : PyValue -> Result Q)
    (engine : Engine) (event_name : string) (w2 : World) :
  TrainsLogger_init kwargs tt w = (tt, w1, Ok lg) ->
  result_of (bypass_mode tt w) = Ok true ->
  let stub_only :=
    Forall (fun e => forall r, final_receiver e = Some r -> r = _Stub) in
  (forall self,
     stub_only (new_effects w2
       (world_of (OutputHandler_call _setup_output_metrics engine
                    (ATrainsLogger lg) event_name self w2)))) /\
  (forall self,
     stub_only (new_effects w2
       (world_of (OptimizerParamsHandler_call float_of_object engine
                    (ATrainsLogger lg) event_name self w2)))) /\
  (forall self,
     stub_only (new_effects w2
       (world_of (WeightsScalarHandler_call engine (ATrainsLogger lg)
                    event_name self w2)))) /\
  (forall self,
     stub_only (new_effects w2
       (world_of (WeightsHistHandler_call engine (ATrainsLogger lg)
                    event_name self w2)))) /\
  (forall self,
     stub_only (new_effects w2
       (world_of (GradsScalarHandler_call engine (ATrainsLogger lg)
                    event_name self w2)))) /\
  (forall self,
     stub_only (new_effects w2
       (world_of (GradsHistHandler_call engine (ATrainsLogger lg)
                    event_name self w2)))).
Proof.
  intros Hinit Hflag stub_only. subst stub_only.
  rewrite bypass_mode_flag in Hflag. injection Hflag as Hflag.
  pose proof (TrainsLogger_init_returns _ _ _ _ Hinit) as Hinst.
  rewrite (TrainsLogger_init_cases kwargs w Hinst), Hflag in Hinit.
  inversion Hinit; subst lg. clear Hinit.
  destruct (handler_calls_only_add _setup_output_metrics float_of_object engine
              (ATrainsLogger (logger_around _Stub kwargs)) event_name w2)
    as [H1 [H2 [H3 [H4 [H5 H6]]]]].
  repeat match goal with |- _ /\ _ => split end; intros self;
    (eapply Forall_impl; [apply (sent_to_stub kwargs) | apply only_adds_new]);
    auto.
Qed.

(** Witness of X12: the output handler with a logger built on a
    continuous-integration machine. *)
Lemma bypass_logger_reaches_stub_only_witness :
  Forall (fun e => forall r, final_receiver e = Some r -> r = _Stub)
    (new_effects Sample.world
       (world_of (OutputHandler_call Sample.all_metrics Sample.engine
                    (ATrainsLogger (logger_around _Stub []))
                    "epoch_completed" Sample.output_handler Sample.world))).
Proof.
  apply (proj1 (bypass_logger_reaches_stub_only [] Sample.world_on_ci
                  (add_effects [warn "TrainsSaver: running in bypass mode"]
                     Sample.world_on_ci)
                  (logger_around _Stub []) Sample.all_metrics Sample.no_conversion
                  Sample.engine "epoch_completed" Sample.world
                  eq_refl eq_refl)).
Defined.

(** ** Paths *)

Lemma contains_app (c : ascii) (a b : string) :
  contains c (a ++ b) = contains c a || contains c b.
Proof.
  induction a as [|x a IH]; simpl; auto.
  rewrite !contains_cons, IH. apply orb_assoc.
Qed.

Lemma os_path_basename_cons (c : ascii) (p : string) :
  os_path_basename (String c p)
  = if Ascii.eqb c "/"%char || contains "/"%char p
    then os_path_basename p else String c p.
Proof.
  unfold contains. simpl. now destruct (Ascii.eqb c "/"%char).
Qed.

(** What precedes a slash does not count. *)
Lemma os_path_basename_after_slash (a b : string) :
  os_path_basename (a ++ String "/"%char b) = os_path_basename b.
Proof.
  induction a as [|c a IH].
  - reflexivity.
  - change (String c a ++ String "/"%char b)%string
      with (String c (a ++ String "/"%char b)).
    rewrite os_path_basename_cons, contains_app, contains_cons.
    simpl (Ascii.eqb "/"%char "/"%char).
    rewrite orb_true_r, orb_true_r. exact IH.
Qed.

Lemma ends_with_slash_split (a : string) :
  ends_with_slash a = true -> exists a', a = (a' ++ "/")%string.
Proof.
  induction a as [|c a IH]; simpl; [discriminate|].
  destruct a as [|c' a].
  - intros Hc. apply Ascii.eqb_eq in Hc. subst c. now exists "".
  - intros H. destruct (IH H) as [a' Ha']. exists (String c a').
    simpl. now rewrite <- Ha'.
Qed.

Lemma os_path_join_cons (a : string) (c : ascii) (b : string) :
  os_path_join a (String c b)
  = if Ascii.eqb c "/"%char then String c b
    else match a with
         | EmptyString => String c b
         | _ => if ends_with_slash a then (a ++ String c b)%string
                else (a ++ "/" ++ String c b)%string
         end.
Proof.
  destruct c as [[] [] [] [] [] [] [] []]; reflexivity.
Qed.

Lemma os_path_basename_join (a b : string) :
  os_path_basename (os_path_join a b) = os_path_basename b.
Proof.
  assert (forall b',
             os_path_basename
               match a with
               | EmptyString => b'
               | _ => if ends_with_slash a then (a ++ b')%string
                      else (a ++ "/" ++ b')%string
               end
             = os_path_basename b') as Hrel.
  { intros b'. destruct a as [|x a]; [reflexivity|].
    destruct (ends_with_slash (String x a)) eqn:Hend.
    - destruct (ends_with_slash_split _ Hend) as [a' ->].
      rewrite append_assoc. apply os_path_basename_after_slash.
    - apply (os_path_basename_after_slash (String x a) b'). }
  destruct b as [|c b].
  - apply (Hrel "").
  - rewrite os_path_join_cons.
    destruct (Ascii.eqb c "/"%char); [reflexivity | apply Hrel].
Qed.

(** ** The checkpoint saver, further *)

Section TrainsSaverProperties.

Variable DiskSaver_init :
  string -> Dict PyValue -> list string -> list string * Result DiskSaver.
Variable DiskSaver_call :
  DiskSaver -> Dict PyValue -> string -> list string ->
  list string * Result unit.

(** [TrainsSaver.__call__] keeps the saver, and touches the disk through
    [DiskSaver] only. *)
Lemma TrainsSaver_call_frame (self : TrainsSaver) (checkpoint : Dict PyValue)
    (filename : string) (w : World) :
  let out := TrainsSaver_call DiskSaver_call checkpoint filename self w in
  self_of out = self /\
  files (world_of out)
  = fst (DiskSaver_call (base self) checkpoint filename (files w)) /\
  _bypass (world_of out) = _bypass w /\
  current_task (world_of out) = current_task w.
Proof.
  unfold TrainsSaver_call, bind, get_self, emit, modify_world, on_files,
    get_world, world_of, self_of.
  simpl. destruct (DiskSaver_call (base self) checkpoint filename (files w))
    as [fs [[]|e]]; simpl; [|repeat split].
  destruct (trains_installed w); simpl; [|repeat split].
  destruct (_atomic (base self)); simpl; [|repeat split].
  destruct (existsb _ fs); simpl; repeat split.
Qed.

(** X13.  When the disk saver writes the checkpoint where it is asked to,
    an atomic [TrainsSaver] with the package installed saves and then
    uploads, once: the call returns, the trace gets the local save
    followed by one upload of the file at [os.path.join(dirname,
    filename)], the saver is unchanged and the disk is as [DiskSaver]
    left it. *)
Theorem atomic_saver_uploads_saved_file (self : TrainsSaver)
    (checkpoint : Dict PyValue) (filename : string) (w : World) :
  (forall s c f fs,
     snd (DiskSaver_call s c f fs) = Ok tt ->
     In (os_path_join (dirname s) f) (fst (DiskSaver_call s c f fs))) ->
  trains_installed w = true ->
  _atomic (base self) = true ->
  snd (DiskSaver_call (base self) checkpoint filename (files w)) = Ok tt ->
  let out := TrainsSaver_call DiskSaver_call checkpoint filename self w in
  result_of out = Ok tt /\
  self_of out = self /\
  new_effects w (world_of out)
  = [DiskSaver_save (dirname (base self)) checkpoint filename;
     create_output_model checkpoint
       (os_path_join (dirname (base self)) filename) "pytorch" (task self)
       true (os_path_basename filename)] /\
  files (world_of out)
  = fst (DiskSaver_call (base self) checkpoint filename (files w)).
Proof.
  intros Hdisk Hinst Hatomic Hsaved out.
  destruct (TrainsSaver_call_trace DiskSaver_call self checkpoint filename w)
    as [Htrace Hres].
  destruct (TrainsSaver_call_frame self checkpoint filename w)
    as [Hself [Hfiles _]].
  fold out in Htrace, Hres, Hself, Hfiles.
  rewrite Hres, Htrace, Hsaved, Hinst, Hatomic. simpl.
  assert (existsb (String.eqb (os_path_join (dirname (base self)) filename))
            (fst (DiskSaver_call (base self) checkpoint filename (files w)))
          = true) as Hexists.
  { apply existsb_exists. eexists. split.
    - apply (Hdisk (base self) checkpoint filename (files w) Hsaved).
    - apply String.eqb_refl. }
  rewrite Hexists. repeat split; auto.
Qed.

(** X14.  Whatever the disk saver does, an upload made by
    [TrainsSaver.__call__] is consistent: the model is the checkpoint
    that was passed, the task is the saver's, the path is
    [os.path.join(dirname, filename)] and exists on disk after the save,
    and the model's name is the base name of that path. *)
Theorem upload_is_named_after_saved_file (self : TrainsSaver)
    (checkpoint : Dict PyValue) (filename : string) (w : World)
    (model : Dict PyValue) (saved_path framework : string)
    (task' : SdkObject) (singlefile : bool) (model_name : string) :
  let out := TrainsSaver_call DiskSaver_call checkpoint filename self w in
  In (create_output_model model saved_path framework task' singlefile
        model_name)
     (new_effects w (world_of out)) ->
  model = checkpoint /\
  task' = task self /\
  saved_path = os_path_join (dirname (base self)) filename /\
  In saved_path (files (world_of out)) /\
  model_name = os_path_basename saved_path /\
  _atomic (base self) = true.
Proof.
  intros out.
  destruct (TrainsSaver_call_trace DiskSaver_call self checkpoint filename w)
    as [Htrace _].
  destruct (TrainsSaver_call_frame self checkpoint filename w)
    as [_ [Hfiles _]].
  fold out in Htrace, Hfiles. rewrite Htrace, Hfiles.
  intros [Heq | Hin]; [discriminate Heq|].
  destruct (is_ok _ && trains_installed w && _atomic (base self)
            && existsb _ _) eqn:Hcond; [|contradiction].
  destruct Hin as [Heq | []]. inversion Heq; subst.
  apply andb_prop in Hcond. destruct Hcond as [Hcond Hexists].
  apply andb_prop in Hcond. destruct Hcond as [_ Hatomic].
  apply existsb_exists in Hexists. destruct Hexists as [x [Hx Hxeq]].
  apply String.eqb_eq in Hxeq. subst x.
  rewrite os_path_basename_join. repeat split; auto.
Qed.

End TrainsSaverProperties.

(** Witness of X13: the sample disk and the atomic sample saver. *)
Lemma atomic_saver_uploads_saved_file_witness :
  let out := TrainsSaver_call Sample.disk_call Sample.checkpoint
               "best_model.pt" Sample.atomic_saver Sample.world in
  result_of out = Ok tt /\
  self_of out = Sample.atomic_saver /\
  new_effects Sample.world (world_of out)
  = [DiskSaver_save "/ckpt" Sample.checkpoint "best_model.pt";
     create_output_model Sample.checkpoint
       (os_path_join "/ckpt" "best_model.pt") "pytorch" SdkTask true
       (os_path_basename "best_model.pt")] /\
  files (world_of out)
  = fst (Sample.disk_call (base Sample.atomic_saver) Sample.checkpoint
           "best_model.pt" []).
Proof.
  apply (atomic_saver_uploads_saved_file Sample.disk_call
           Sample.atomic_saver Sample.checkpoint "best_model.pt"
           Sample.world).
  - intros s c f fs _. now left.
  - reflexivity.
  - reflexivity.
  - reflexivity.
Defined.

(** Witness of X14: the upload of the atomic sample saver. *)
Lemma upload_is_named_after_saved_file_witness :
  "best_model.pt" = os_path_basename "/ckpt/best_model.pt".
Proof.
  apply (upload_is_named_after_saved_file Sample.disk_call
           Sample.atomic_saver Sample.checkpoint "best_model.pt"
           Sample.world Sample.checkpoint "/ckpt/best_model.pt" "pytorch"
           SdkTask true "best_model.pt").
  right. now left.
Defined.

(** X15.  A [TrainsSaver] that was constructed holds the logger it was
    given and the current task, and its [DiskSaver] part was initialised
    on the directory given, or, when none was given (or an empty one), on
    a fresh temporary directory named ["ignite_checkpoints_"] with the
    time, in which case the call of [mkdtemp] and a warning naming the
    directory come first in the trace.  The only other call is the one
    setting [output_uri] on a real current task, when one is given. *)
Theorem TrainsSaver_init_directory
    (DiskSaver_init :
       string -> Dict PyValue -> list string -> list string * Result DiskSaver)
    (lg : TrainsLogger) (output_uri dirname : option string)
    (kwargs : Dict PyValue) (w w' : World) (saver : TrainsSaver) :
  TrainsSaver_init DiskSaver_init (ATrainsLogger lg) output_uri dirname
    kwargs tt w
  = (tt, w', Ok saver) ->
  let tmp := os_path_join (tempdir w)
               (("ignite_checkpoints_" ++ clock w) ++ tmp_suffix w)%string in
  let d := if truthy dirname then from_option dirname else tmp in
  let fs := if truthy dirname then files w else tmp :: files w in
  snd (DiskSaver_init d kwargs fs) = Ok (base saver) /\
  files w' = fst (DiskSaver_init d kwargs fs) /\
  logger saver = lg /\
  task saver = current_task w /\
  new_effects w w'
  = (if truthy dirname then []
     else [mkdtemp ("ignite_checkpoints_" ++ clock w);
           warn ("TrainsSaver created a temporary checkpoints directory: "
                 ++ tmp)])
    ++ (if truthy output_uri then
          match current_task w with
          | SdkTask => [set_output_uri SdkTask (from_option output_uri)]
          | _ => []
          end
        else []).
Proof.
  intros H tmp d fs. subst tmp d fs.
  unfold TrainsSaver_init, bind, get_world, emit, modify_world, on_files,
    ret, raise in H.
  destruct (trains_installed w); simpl in H; [|discriminate H].
  destruct (truthy dirname); simpl in H |- *.
  - destruct (DiskSaver_init (from_option dirname) kwargs (files w))
      as [fs' [b|e]]; simpl in H |- *; [|discriminate H].
    destruct (truthy output_uri); simpl in H.
    + destruct (current_task w) eqn:Htask; simpl in H; inversion H; subst;
        simpl; repeat split; auto;
        apply new_effects_eq; simpl; now rewrite ?app_nil_r.
    + inversion H; subst; simpl; repeat split; auto.
      apply new_effects_eq; simpl; now rewrite ?app_nil_r.
  - destruct (DiskSaver_init _ kwargs (_ :: files w))
      as [fs' [b|e]]; simpl in H |- *; [|discriminate H].
    destruct (truthy output_uri); simpl in H.
    + destruct (current_task w) eqn:Htask; simpl in H; inversion H; subst;
        simpl; repeat split; auto;
        apply new_effects_eq; simpl; now rewrite <- ?app_assoc.
    + inversion H; subst; simpl; repeat split; auto.
      apply new_effects_eq; simpl; now rewrite <- ?app_assoc.
Qed.

(** Witness of X15: a saver without directory on the sample disk. *)
Lemma TrainsSaver_init_directory_witness :
  new_effects Sample.world
    (world_of (TrainsSaver_init Sample.disk_init
                 (ATrainsLogger Sample.trains) None None [] tt Sample.world))
  = [mkdtemp "ignite_checkpoints_2020_05_01_10_00_00_";
     warn "TrainsSaver created a temporary checkpoints directory: /tmp/ignite_checkpoints_2020_05_01_10_00_00_k3x9"].
Proof.
  apply (TrainsSaver_init_directory Sample.disk_init Sample.trains None None
           [] Sample.world _
           {| base := {| dirname := "/tmp/ignite_checkpoints_2020_05_01_10_00_00_k3x9";
                         _atomic := true |};
              logger := Sample.trains; task := SdkNone |}
           eq_refl).
Defined.
